(** * ScanRegistration: parameter parsing, node set-up and message handlers

    A shallow embedding of [src/lib/ScanRegistration.cpp] (namespace [loam]):
    [parseParams], [setupROS], [handleIMUMessage] and [publishResult].

    Conventions of the embedding.
    - An [int] is a [Z]. The product [10 * iParam] is the 32-bit product
      [Int32.mul]; the loop counter, which stays between 0 and 11, is
      incremented in [Z].
    - A [float] option and the [float] fields of [RegistrationParams] are
      values of [Float]: not-a-number, an infinity or a finite value, which
      is a rational; comparisons are the IEEE 754 ones, false whenever an
      operand is not-a-number. The literal [0.001] is the decimal it
      denotes (no [float] lies between it and its [double] rounding). The
      [double] computations of [handleIMUMessage] are carried out over [R],
      with the narrowing [float(...)] kept as an explicit function.
    - The node's effects (log lines, transform look-ups, sleeps,
      subscriptions, advertisements) are recorded, in program order, in a
      trace of [Event]s that every function threads through. *)

From Stdlib Require Import ZArith QArith Reals Bool List String Lia.
From Equations Require Import Equations.
Import ListNotations.

Local Open Scope string_scope.
Local Open Scope list_scope.
Local Open Scope Z_scope.

(** ** Machine integers *)

Module Int32.

Definition min_int : Z := -2147483648.
Definition max_int : Z := 2147483647.

Definition in_range (z : Z) : Prop := min_int <= z <= max_int.

(** Two's complement reduction of a mathematical integer to 32 bits. *)
Definition wrap (z : Z) : Z := (z - min_int) mod 4294967296 + min_int.

Definition mul (a b : Z) : Z := wrap (a * b).

End Int32.

(** ** Floating-point values *)

(** A [float]: not-a-number, plus or minus infinity, or a finite value. *)
Inductive Float :=
| NaN
| Inf (negative : bool)
| Num (q : Q).

(** [a <= b] and [a < b] as the machine evaluates them: false as soon as one
    side is [NaN]. *)
Definition Float_leb (a b : Float) : bool :=
  match a, b with
  | NaN, _ => false
  | _, NaN => false
  | Inf true, _ => true
  | _, Inf false => true
  | Inf false, _ => false
  | _, Inf true => false
  | Num p, Num q => Qle_bool p q
  end.

Definition Float_ltb (a b : Float) : bool :=
  match a, b with
  | NaN, _ => false
  | _, NaN => false
  | _, _ => negb (Float_leb b a)
  end.

Definition Float_le (a b : Float) : Prop := Float_leb a b = true.

Definition Float_lt (a b : Float) : Prop := Float_ltb a b = true.

Definition is_number (a : Float) : Prop := a <> NaN.

(** ** Messages and handles of the middleware, as far as the file uses them *)

Record Time := { sec : Z; nsec : Z }.

Record Vector3d := { v_x : R; v_y : R; v_z : R }.

Record Quaternion := { q_x : R; q_y : R; q_z : R; q_w : R }.

Record Header := { seq : Z; stamp : Time; frame_id : string }.

(** [geometry_msgs::TransformStamped], the type of [_T_lidar_imu]. *)
Record TransformStamped := {
  tf_header : Header;
  child_frame_id : string;
  translation : Vector3d;
  rotation : Quaternion
}.

(** [sensor_msgs::Imu]. *)
Record Imu := {
  header : Header;
  orientation : Quaternion;
  orientation_covariance : list R;
  angular_velocity : Vector3d;
  angular_velocity_covariance : list R;
  linear_acceleration : Vector3d;
  linear_acceleration_covariance : list R
}.

Record Subscriber := { sub_topic : string; sub_queue : Z }.

Record Publisher := { pub_topic : string; pub_queue : Z }.

Inductive LogLevel := DEBUG | INFO | ERROR.

(** What the node does to the outside world. A log line is recorded by its
    level and format string. *)
Inductive Event :=
| RosLog (lvl : LogLevel) (fmt : string)
| TfLookup (target source : string)
| Sleep (secs : Q)
| Subscribe (topic : string) (queue_size : Z)
| Advertise (topic : string) (queue_size : Z).

(** A node handle, seen through [getParam]: each typed overload either
    returns [false] and leaves its output argument alone ([None]) or returns
    [true] and the value ([Some]). *)
Record NodeHandle := {
  getParam_float : string -> option Float;
  getParam_int : string -> option Z;
  getParam_bool : string -> option bool;
  getParam_string : string -> option string
}.

(** The transform buffer, seen through [lookupTransform(target, source,
    ros::Time(0))]: the [k]-th call either returns a transform or throws a
    [tf2::TransformException] ([None]). *)
Definition TfBuffer := Z -> string -> string -> option TransformStamped.

(** ** Configuration and node state *)

(** [RegistrationParams], with the fields [parseParams] writes. *)
Record RegistrationParams := {
  scanPeriod : Float;
  imuHistorySize : Z;
  nFeatureRegions : Z;
  curvatureRegion : Z;
  maxCornerSharp : Z;
  maxCornerLessSharp : Z;
  maxSurfaceFlat : Z;
  lessFlatFilterSize : Float;
  surfaceCurvatureThreshold : Float
}.

Definition set_scanPeriod (v : Float) (c : RegistrationParams) :=
  {| scanPeriod := v; imuHistorySize := imuHistorySize c;
     nFeatureRegions := nFeatureRegions c; curvatureRegion := curvatureRegion c;
     maxCornerSharp := maxCornerSharp c; maxCornerLessSharp := maxCornerLessSharp c;
     maxSurfaceFlat := maxSurfaceFlat c; lessFlatFilterSize := lessFlatFilterSize c;
     surfaceCurvatureThreshold := surfaceCurvatureThreshold c |}.

Definition set_imuHistorySize (v : Z) (c : RegistrationParams) :=
  {| scanPeriod := scanPeriod c; imuHistorySize := v;
     nFeatureRegions := nFeatureRegions c; curvatureRegion := curvatureRegion c;
     maxCornerSharp := maxCornerSharp c; maxCornerLessSharp := maxCornerLessSharp c;
     maxSurfaceFlat := maxSurfaceFlat c; lessFlatFilterSize := lessFlatFilterSize c;
     surfaceCurvatureThreshold := surfaceCurvatureThreshold c |}.

Definition set_nFeatureRegions (v : Z) (c : RegistrationParams) :=
  {| scanPeriod := scanPeriod c; imuHistorySize := imuHistorySize c;
     nFeatureRegions := v; curvatureRegion := curvatureRegion c;
     maxCornerSharp := maxCornerSharp c; maxCornerLessSharp := maxCornerLessSharp c;
     maxSurfaceFlat := maxSurfaceFlat c; lessFlatFilterSize := lessFlatFilterSize c;
     surfaceCurvatureThreshold := surfaceCurvatureThreshold c |}.

Definition set_curvatureRegion (v : Z) (c : RegistrationParams) :=
  {| scanPeriod := scanPeriod c; imuHistorySize := imuHistorySize c;
     nFeatureRegions := nFeatureRegions c; curvatureRegion := v;
     maxCornerSharp := maxCornerSharp c; maxCornerLessSharp := maxCornerLessSharp c;
     maxSurfaceFlat := maxSurfaceFlat c; lessFlatFilterSize := lessFlatFilterSize c;
     surfaceCurvatureThreshold := surfaceCurvatureThreshold c |}.

Definition set_maxCornerSharp (v : Z) (c : RegistrationParams) :=
  {| scanPeriod := scanPeriod c; imuHistorySize := imuHistorySize c;
     nFeatureRegions := nFeatureRegions c; curvatureRegion := curvatureRegion c;
     maxCornerSharp := v; maxCornerLessSharp := maxCornerLessSharp c;
     maxSurfaceFlat := maxSurfaceFlat c; lessFlatFilterSize := lessFlatFilterSize c;
     surfaceCurvatureThreshold := surfaceCurvatureThreshold c |}.

Definition set_maxCornerLessSharp (v : Z) (c : RegistrationParams) :=
  {| scanPeriod := scanPeriod c; imuHistorySize := imuHistorySize c;
     nFeatureRegions := nFeatureRegions c; curvatureRegion := curvatureRegion c;
     maxCornerSharp := maxCornerSharp c; maxCornerLessSharp := v;
     maxSurfaceFlat := maxSurfaceFlat c; lessFlatFilterSize := lessFlatFilterSize c;
     surfaceCurvatureThreshold := surfaceCurvatureThreshold c |}.

Definition set_maxSurfaceFlat (v : Z) (c : RegistrationParams) :=
  {| scanPeriod := scanPeriod c; imuHistorySize := imuHistorySize c;
     nFeatureRegions := nFeatureRegions c; curvatureRegion := curvatureRegion c;
     maxCornerSharp := maxCornerSharp c; maxCornerLessSharp := maxCornerLessSharp c;
     maxSurfaceFlat := v; lessFlatFilterSize := lessFlatFilterSize c;
     surfaceCurvatureThreshold := surfaceCurvatureThreshold c |}.

Definition set_lessFlatFilterSize (v : Float) (c : RegistrationParams) :=
  {| scanPeriod := scanPeriod c; imuHistorySize := imuHistorySize c;
     nFeatureRegions := nFeatureRegions c; curvatureRegion := curvatureRegion c;
     maxCornerSharp := maxCornerSharp c; maxCornerLessSharp := maxCornerLessSharp c;
     maxSurfaceFlat := maxSurfaceFlat c; lessFlatFilterSize := v;
     surfaceCurvatureThreshold := surfaceCurvatureThreshold c |}.

Definition set_surfaceCurvatureThreshold (v : Float) (c : RegistrationParams) :=
  {| scanPeriod := scanPeriod c; imuHistorySize := imuHistorySize c;
     nFeatureRegions := nFeatureRegions c; curvatureRegion := curvatureRegion c;
     maxCornerSharp := maxCornerSharp c; maxCornerLessSharp := maxCornerLessSharp c;
     maxSurfaceFlat := maxSurfaceFlat c; lessFlatFilterSize := lessFlatFilterSize c;
     surfaceCurvatureThreshold := v |}.

(** The members of [ScanRegistration] the file reads or writes. A handle
    that has not been set up is [None]. *)
Record ScanRegistration := {
  _transformIMU : bool;
  _imuFrame : string;
  _lidarFrame : string;
  _imuInputTopic : string;
  _T_lidar_imu : TransformStamped;
  _subImu : option Subscriber;
  _pubLaserCloud : option Publisher;
  _pubCornerPointsSharp : option Publisher;
  _pubCornerPointsLessSharp : option Publisher;
  _pubSurfPointsFlat : option Publisher;
  _pubSurfPointsLessFlat : option Publisher;
  _pubImuTrans : option Publisher
}.

Definition set_transformIMU (b : bool) (t : ScanRegistration) :=
  {| _transformIMU := b; _imuFrame := _imuFrame t; _lidarFrame := _lidarFrame t;
     _imuInputTopic := _imuInputTopic t; _T_lidar_imu := _T_lidar_imu t;
     _subImu := _subImu t; _pubLaserCloud := _pubLaserCloud t;
     _pubCornerPointsSharp := _pubCornerPointsSharp t;
     _pubCornerPointsLessSharp := _pubCornerPointsLessSharp t;
     _pubSurfPointsFlat := _pubSurfPointsFlat t;
     _pubSurfPointsLessFlat := _pubSurfPointsLessFlat t;
     _pubImuTrans := _pubImuTrans t |}.

Definition set_imuFrame (s : string) (t : ScanRegistration) :=
  {| _transformIMU := _transformIMU t; _imuFrame := s; _lidarFrame := _lidarFrame t;
     _imuInputTopic := _imuInputTopic t; _T_lidar_imu := _T_lidar_imu t;
     _subImu := _subImu t; _pubLaserCloud := _pubLaserCloud t;
     _pubCornerPointsSharp := _pubCornerPointsSharp t;
     _pubCornerPointsLessSharp := _pubCornerPointsLessSharp t;
     _pubSurfPointsFlat := _pubSurfPointsFlat t;
     _pubSurfPointsLessFlat := _pubSurfPointsLessFlat t;
     _pubImuTrans := _pubImuTrans t |}.

Definition set_lidarFrame (s : string) (t : ScanRegistration) :=
  {| _transformIMU := _transformIMU t; _imuFrame := _imuFrame t; _lidarFrame := s;
     _imuInputTopic := _imuInputTopic t; _T_lidar_imu := _T_lidar_imu t;
     _subImu := _subImu t; _pubLaserCloud := _pubLaserCloud t;
     _pubCornerPointsSharp := _pubCornerPointsSharp t;
     _pubCornerPointsLessSharp := _pubCornerPointsLessSharp t;
     _pubSurfPointsFlat := _pubSurfPointsFlat t;
     _pubSurfPointsLessFlat := _pubSurfPointsLessFlat t;
     _pubImuTrans := _pubImuTrans t |}.

Definition set_imuInputTopic (s : string) (t : ScanRegistration) :=
  {| _transformIMU := _transformIMU t; _imuFrame := _imuFrame t;
     _lidarFrame := _lidarFrame t;
     _imuInputTopic := s; _T_lidar_imu := _T_lidar_imu t;
     _subImu := _subImu t; _pubLaserCloud := _pubLaserCloud t;
     _pubCornerPointsSharp := _pubCornerPointsSharp t;
     _pubCornerPointsLessSharp := _pubCornerPointsLessSharp t;
     _pubSurfPointsFlat := _pubSurfPointsFlat t;
     _pubSurfPointsLessFlat := _pubSurfPointsLessFlat t;
     _pubImuTrans := _pubImuTrans t |}.

Definition set_T_lidar_imu (T : TransformStamped) (t : ScanRegistration) :=
  {| _transformIMU := _transformIMU t; _imuFrame := _imuFrame t;
     _lidarFrame := _lidarFrame t;
     _imuInputTopic := _imuInputTopic t; _T_lidar_imu := T;
     _subImu := _subImu t; _pubLaserCloud := _pubLaserCloud t;
     _pubCornerPointsSharp := _pubCornerPointsSharp t;
     _pubCornerPointsLessSharp := _pubCornerPointsLessSharp t;
     _pubSurfPointsFlat := _pubSurfPointsFlat t;
     _pubSurfPointsLessFlat := _pubSurfPointsLessFlat t;
     _pubImuTrans := _pubImuTrans t |}.

(** The handles [setupROS] creates once the parameters are accepted. *)
Definition set_handles (sub : Subscriber) (p1 p2 p3 p4 p5 p6 : Publisher)
    (t : ScanRegistration) :=
  {| _transformIMU := _transformIMU t; _imuFrame := _imuFrame t;
     _lidarFrame := _lidarFrame t;
     _imuInputTopic := _imuInputTopic t; _T_lidar_imu := _T_lidar_imu t;
     _subImu := Some sub; _pubLaserCloud := Some p1;
     _pubCornerPointsSharp := Some p2;
     _pubCornerPointsLessSharp := Some p3;
     _pubSurfPointsFlat := Some p4;
     _pubSurfPointsLessFlat := Some p5;
     _pubImuTrans := Some p6 |}.

(** ** parseParams *)

(** The variables [parseParams] works on: its local [success], the
    reference [config_out], the object itself and the trace of effects. *)
Record Frame := {
  success : bool;
  config_out : RegistrationParams;
  this : ScanRegistration;
  trace : list Event
}.

Definition log (lvl : LogLevel) (fmt : string) (s : Frame) : Frame :=
  {| success := success s; config_out := config_out s; this := this s;
     trace := trace s ++ [RosLog lvl fmt] |}.

Definition emit (e : Event) (s : Frame) : Frame :=
  {| success := success s; config_out := config_out s; this := this s;
     trace := trace s ++ [e] |}.

(** [ROS_ERROR(...); success = false;] *)
Definition reject (fmt : string) (s : Frame) : Frame :=
  {| success := false; config_out := config_out s; this := this s;
     trace := trace s ++ [RosLog ERROR fmt] |}.

Definition with_config (f : RegistrationParams -> RegistrationParams)
    (s : Frame) : Frame :=
  {| success := success s; config_out := f (config_out s); this := this s;
     trace := trace s |}.

Definition with_this (f : ScanRegistration -> ScanRegistration)
    (s : Frame) : Frame :=
  {| success := success s; config_out := config_out s; this := f (this s);
     trace := trace s |}.

Definition parse_scanPeriod (node : NodeHandle) (s : Frame) : Frame :=
  match getParam_float node "scanPeriod" with
  | Some fParam =>
      if Float_leb fParam (Num 0)
      then reject "Invalid scanPeriod parameter: %f (expected > 0)" s
      else log DEBUG "Set scanPeriod: %g" (with_config (set_scanPeriod fParam) s)
  | None => s
  end.

Definition parse_imuHistorySize (privateNode : NodeHandle) (s : Frame) : Frame :=
  match getParam_int privateNode "imuHistorySize" with
  | Some iParam =>
      if iParam <? 1
      then reject "Invalid imuHistorySize parameter: %d (expected >= 1)" s
      else log DEBUG "Set imuHistorySize: %d"
             (with_config (set_imuHistorySize iParam) s)
  | None => s
  end.

Definition parse_featureRegions (privateNode : NodeHandle) (s : Frame) : Frame :=
  match getParam_int privateNode "featureRegions" with
  | Some iParam =>
      if iParam <? 1
      then reject "Invalid featureRegions parameter: %d (expected >= 1)" s
      else log DEBUG "Set nFeatureRegions: %d"
             (with_config (set_nFeatureRegions iParam) s)
  | None => s
  end.

Definition parse_curvatureRegion (privateNode : NodeHandle) (s : Frame) : Frame :=
  match getParam_int privateNode "curvatureRegion" with
  | Some iParam =>
      if iParam <? 1
      then reject "Invalid curvatureRegion parameter: %d (expected >= 1)" s
      else log DEBUG "Set curvatureRegion: +/- %d"
             (with_config (set_curvatureRegion iParam) s)
  | None => s
  end.

Definition parse_maxCornerSharp (privateNode : NodeHandle) (s : Frame) : Frame :=
  match getParam_int privateNode "maxCornerSharp" with
  | Some iParam =>
      if iParam <? 1
      then reject "Invalid maxCornerSharp parameter: %d (expected >= 1)" s
      else log DEBUG "Set maxCornerSharp / less sharp: %d / %d"
             (with_config (set_maxCornerLessSharp (Int32.mul 10 iParam))
                (with_config (set_maxCornerSharp iParam) s))
  | None => s
  end.

Definition parse_maxCornerLessSharp (privateNode : NodeHandle) (s : Frame) : Frame :=
  match getParam_int privateNode "maxCornerLessSharp" with
  | Some iParam =>
      if iParam <? maxCornerSharp (config_out s)
      then reject "Invalid maxCornerLessSharp parameter: %d (expected >= %d)" s
      else log DEBUG "Set maxCornerLessSharp: %d"
             (with_config (set_maxCornerLessSharp iParam) s)
  | None => s
  end.

Definition parse_maxSurfaceFlat (privateNode : NodeHandle) (s : Frame) : Frame :=
  match getParam_int privateNode "maxSurfaceFlat" with
  | Some iParam =>
      if iParam <? 1
      then reject "Invalid maxSurfaceFlat parameter: %d (expected >= 1)" s
      else log DEBUG "Set maxSurfaceFlat: %d"
             (with_config (set_maxSurfaceFlat iParam) s)
  | None => s
  end.

Definition parse_surfaceCurvatureThreshold (privateNode : NodeHandle)
    (s : Frame) : Frame :=
  match getParam_float privateNode "surfaceCurvatureThreshold" with
  | Some fParam =>
      if Float_ltb fParam (Num (1 # 1000))
      then reject
             "Invalid surfaceCurvatureThreshold parameter: %f (expected >= 0.001)" s
      else log DEBUG "Set surfaceCurvatureThreshold: %g"
             (with_config (set_surfaceCurvatureThreshold fParam) s)
  | None => s
  end.

Definition parse_lessFlatFilterSize (privateNode : NodeHandle) (s : Frame) : Frame :=
  match getParam_float privateNode "lessFlatFilterSize" with
  | Some fParam =>
      if Float_ltb fParam (Num (1 # 1000))
      then reject "Invalid lessFlatFilterSize parameter: %f (expected >= 0.001)" s
      else log DEBUG "Set lessFlatFilterSize: %g"
             (with_config (set_lessFlatFilterSize fParam) s)
  | None => s
  end.

Definition parse_lidarFrame (node : NodeHandle) (s : Frame) : Frame :=
  match getParam_string node "lidarFrame" with
  | Some sParam =>
      log DEBUG "Set lidar frame name to: %s" (with_this (set_lidarFrame sParam) s)
  | None => s
  end.

Definition parse_imuFrame (node : NodeHandle) (s : Frame) : Frame :=
  match getParam_string node "imuFrame" with
  | Some sParam =>
      log DEBUG "Set IMU frame name to: %s" (with_this (set_imuFrame sParam) s)
  | None => s
  end.

Definition parse_transformImuData (node : NodeHandle) (s : Frame) : Frame :=
  match getParam_bool node "transformImuData" with
  | Some bParam =>
      log DEBUG "Set transformImuData to: %d" (with_this (set_transformIMU bParam) s)
  | None => s
  end.

Definition parse_imuInputTopic (node : NodeHandle) (s : Frame) : Frame :=
  match getParam_string node "imuInputTopic" with
  | Some sParam =>
      log DEBUG "Set IMU input topic name to: %s"
        (with_this (set_imuInputTopic sParam) s)
  | None => s
  end.

(** *** The transform look-up loop (the [while (!transform_found)] of
    [parseParams]) *)

Record LoopVars := { transform_found : bool; counter : Z }.

(** One pass through the loop body. *)
Definition lookup_iteration (tfBuffer : TfBuffer) (v : LoopVars * Frame)
    : LoopVars * Frame :=
  let s := snd v in
  let counter' := counter (fst v) + 1 in
  let s := emit (TfLookup (_lidarFrame (this s)) (_imuFrame (this s))) s in
  let r :=
    match tfBuffer counter' (_lidarFrame (this s)) (_imuFrame (this s)) with
    | Some T =>
        (true,
         log INFO "Found IMU Lidar transform." (with_this (set_T_lidar_imu T) s))
    | None =>
        (false,
         emit (Sleep 1) (log INFO "waiting for transform..." (log INFO "%s" s)))
    end in
  if 10 <? counter'
  then ({| transform_found := true; counter := counter' |},
        with_this (set_transformIMU false)
          (log ERROR
             "Cannot find transform from imu frame to lidar frame. Not transforming data."
             (snd r)))
  else ({| transform_found := fst r; counter := counter' |}, snd r).

Definition inspect {A : Type} (a : A) : { b : A | a = b } := exist _ a eq_refl.

(** Look-ups the loop can still make before [counter > 10] stops it. *)
Definition attempts_left (v : LoopVars * Frame) : nat :=
  Z.to_nat (11 - counter (fst v)).

(** The loop once its guard has been found true: run the body, test the
    guard again. The loop has no iteration bound of its own; it is a
    function because [attempts_left] decreases on every pass that leaves
    [transform_found] false. *)
Equations? lookup_retry (tfBuffer : TfBuffer) (v : LoopVars * Frame)
    : LoopVars * Frame by wf (attempts_left v) lt :=
  lookup_retry tfBuffer v
    with inspect (transform_found (fst (lookup_iteration tfBuffer v))) := {
    | exist _ true _ => lookup_iteration tfBuffer v
    | exist _ false Hguard => lookup_retry tfBuffer (lookup_iteration tfBuffer v) }.
Proof.
  change (attempts_left (lookup_iteration tfBuffer (l, f)) < attempts_left (l, f))%nat.
  unfold attempts_left, lookup_iteration in *. cbn [fst snd] in *.
  destruct (10 <? counter l + 1) eqn:Hc; cbn [fst snd transform_found counter] in *.
  - discriminate.
  - apply Z.ltb_ge in Hc. lia.
Qed.

(** [while (!transform_found) { ... }] *)
Definition lookup_while (tfBuffer : TfBuffer) (v : LoopVars * Frame)
    : LoopVars * Frame :=
  if transform_found (fst v) then v else lookup_retry tfBuffer v.

(** [if (_transformIMU) { ...; bool transform_found = false; int counter = 0;
    while ... }] *)
Definition resolve_transform (tfBuffer : TfBuffer) (s : Frame) : Frame :=
  if _transformIMU (this s)
  then snd (lookup_while tfBuffer ({| transform_found := false; counter := 0 |}, s))
  else s.

(** The nine validated options, in program order. *)
Definition parse_config (node privateNode : NodeHandle) (s : Frame) : Frame :=
  let s := parse_scanPeriod node s in
  let s := parse_imuHistorySize privateNode s in
  let s := parse_featureRegions privateNode s in
  let s := parse_curvatureRegion privateNode s in
  let s := parse_maxCornerSharp privateNode s in
  let s := parse_maxCornerLessSharp privateNode s in
  let s := parse_maxSurfaceFlat privateNode s in
  let s := parse_surfaceCurvatureThreshold privateNode s in
  parse_lessFlatFilterSize privateNode s.

(** The four unvalidated options that configure the object itself. *)
Definition parse_members (node : NodeHandle) (s : Frame) : Frame :=
  let s := parse_lidarFrame node s in
  let s := parse_imuFrame node s in
  let s := parse_transformImuData node s in
  parse_imuInputTopic node s.

(** [parseParams]. The [success] field of the result is the value the
    function returns. *)
Definition parseParams (node privateNode : NodeHandle) (tfBuffer : TfBuffer)
    (config : RegistrationParams) (obj : ScanRegistration) (tr : list Event)
    : Frame :=
  let s := {| success := true; config_out := config; this := obj; trace := tr |} in
  let s := parse_config node privateNode s in
  let s := parse_members node s in
  resolve_transform tfBuffer s.

(** ** setupROS *)

Definition subscribe (topic : string) (queue_size : Z) : Subscriber :=
  {| sub_topic := topic; sub_queue := queue_size |}.

Definition advertise (topic : string) (queue_size : Z) : Publisher :=
  {| pub_topic := topic; pub_queue := queue_size |}.

(** The events of the seven [node.subscribe] / [node.advertise] calls. *)
Definition setup_events (imuTopic : string) : list Event :=
  [ Subscribe imuTopic 50;
    Advertise "velodyne_cloud_2" 2;
    Advertise "laser_cloud_sharp" 2;
    Advertise "laser_cloud_less_sharp" 2;
    Advertise "laser_cloud_flat" 2;
    Advertise "laser_cloud_less_flat" 2;
    Advertise "imu_trans" 5 ].

Definition reset_members (obj : ScanRegistration) : ScanRegistration :=
  set_imuInputTopic "/imu/data"
    (set_lidarFrame "/camera"
       (set_imuFrame "/imu"
          (set_transformIMU false obj))).

(** [setupROS]. The [success] field of the result is the value the function
    returns. *)
Definition setupROS (node privateNode : NodeHandle) (tfBuffer : TfBuffer)
    (config : RegistrationParams) (obj : ScanRegistration) (tr : list Event)
    : Frame :=
  let s := parseParams node privateNode tfBuffer config (reset_members obj) tr in
  if negb (success s)
  then {| success := false; config_out := config_out s; this := this s;
          trace := trace s |}
  else
    let topic := _imuInputTopic (this s) in
    {| success := true;
       config_out := config_out s;
       this := set_handles (subscribe topic 50)
                 (advertise "velodyne_cloud_2" 2)
                 (advertise "laser_cloud_sharp" 2)
                 (advertise "laser_cloud_less_sharp" 2)
                 (advertise "laser_cloud_flat" 2)
                 (advertise "laser_cloud_less_flat" 2)
                 (advertise "imu_trans" 5)
                 (this s);
       trace := trace s ++ setup_events topic |}.

(** ** handleIMUMessage and publishResult *)

(** [geometry_msgs::Vector3] and [Quaternion] default to zeros and a
    default-constructed [sensor_msgs::Imu] holds zeros throughout. *)
Definition Vector3d_zero : Vector3d := {| v_x := 0; v_y := 0; v_z := 0 |}.

Definition Imu_empty : Imu :=
  {| header := {| seq := 0; stamp := {| sec := 0; nsec := 0 |}; frame_id := "" |};
     orientation := {| q_x := 0; q_y := 0; q_z := 0; q_w := 0 |};
     orientation_covariance := repeat 0%R 9;
     angular_velocity := Vector3d_zero;
     angular_velocity_covariance := repeat 0%R 9;
     linear_acceleration := Vector3d_zero;
     linear_acceleration_covariance := repeat 0%R 9 |}.

(** [loam::Vector3]: three [float] components. *)
Record Vector3 := { vec_x : R; vec_y : R; vec_z : R }.

Section Node.

(** What the two handlers call but this file does not define. *)

(** The narrowing conversion [float(d)] of a [double]. *)
Variable to_float : R -> R.

(** [tf::quaternionMsgToTF] followed by [tf::Matrix3x3(q).getRPY(roll, pitch,
    yaw)]. *)
Variable getRPY : Quaternion -> R * R * R.

(** [transformIMU(in, out, T)]: the sample [out] holds afterwards. *)
Variable transformIMU : Imu -> Imu -> TransformStamped -> Imu.

(** [loam::Time], [loam::Angle] and the conversions between the clocks. *)
Variable ChronoTime : Type.
Variable fromROSTime : Time -> ChronoTime.
Variable toROSTime : ChronoTime -> Time.
Variable Angle : Type.
Variable Angle_of_float : R -> Angle.

Record IMUState := {
  imu_stamp : ChronoTime;
  roll : Angle;
  pitch : Angle;
  yaw : Angle;
  position : Vector3;
  velocity : Vector3;
  acceleration : Vector3
}.

(** A default-constructed [IMUState]. *)
Variable IMUState_default : IMUState.

(** The state of the base class [BasicScanRegistration] and the members of
    it the handlers use. *)
Variable Basic : Type.
Variable PointCloud : Type.
Variable updateIMUData : Vector3 -> IMUState -> Basic -> Basic.
Variable sweepStart : Basic -> ChronoTime.
Variable laserCloud : Basic -> PointCloud.
Variable cornerPointsSharp : Basic -> PointCloud.
Variable cornerPointsLessSharp : Basic -> PointCloud.
Variable surfacePointsFlat : Basic -> PointCloud.
Variable surfacePointsLessFlat : Basic -> PointCloud.
Variable imuTransform : Basic -> PointCloud.

(** The sample the handler works on after its first [if]. *)
Definition imuInRotated (obj : ScanRegistration) (imuIn : Imu) : Imu :=
  if _transformIMU obj
  then transformIMU imuIn Imu_empty (_T_lidar_imu obj)
  else imuIn.

(** [Vector3 acc] as the handler fills it from a sample and its roll and
    pitch. *)
Definition compensated_acc (m : Imu) (roll pitch : R) : Vector3 :=
  {| vec_x := to_float (v_y (linear_acceleration m) - sin roll * cos pitch * 9.81);
     vec_y := to_float (v_z (linear_acceleration m) - cos roll * cos pitch * 9.81);
     vec_z := to_float (v_x (linear_acceleration m) + sin pitch * 9.81) |}.

(** The two arguments the handler passes to [updateIMUData] for a sample
    that has been through the first [if]. *)
Definition imu_update (m : Imu) : Vector3 * IMUState :=
  let '(roll, pitch, yaw) := getRPY (orientation m) in
  let acc := compensated_acc m roll pitch in
  let newState :=
    {| imu_stamp := fromROSTime (stamp (header m));
       roll := Angle_of_float (to_float roll);
       pitch := Angle_of_float (to_float pitch);
       yaw := Angle_of_float (to_float yaw);
       position := position IMUState_default;
       velocity := velocity IMUState_default;
       acceleration := acc |} in
  (acc, newState).

Definition handleIMUMessage (obj : ScanRegistration) (imuIn : Imu) (b : Basic)
    : Basic :=
  let u := imu_update (imuInRotated obj imuIn) in
  updateIMUData (fst u) (snd u) b.

(** One call of [publishCloudMsg(publisher, cloud, stamp, frameID)]. *)
Record CloudMsg := {
  msg_publisher : option Publisher;
  msg_cloud : PointCloud;
  msg_stamp : Time;
  msg_frame_id : string
}.

Definition publishCloudMsg (publisher : option Publisher) (cloud : PointCloud)
    (stamp : Time) (frameID : string) (out : list CloudMsg) : list CloudMsg :=
  out ++ [ {| msg_publisher := publisher; msg_cloud := cloud;
              msg_stamp := stamp; msg_frame_id := frameID |} ].

(** [publishResult], as the list of [publishCloudMsg] calls it adds to the
    ones made so far. *)
Definition publishResult (obj : ScanRegistration) (b : Basic)
    (out : list CloudMsg) : list CloudMsg :=
  let sweepStartTime := toROSTime (sweepStart b) in
  let out := publishCloudMsg (_pubLaserCloud obj) (laserCloud b)
               sweepStartTime (_lidarFrame obj) out in
  let out := publishCloudMsg (_pubCornerPointsSharp obj) (cornerPointsSharp b)
               sweepStartTime (_lidarFrame obj) out in
  let out := publishCloudMsg (_pubCornerPointsLessSharp obj) (cornerPointsLessSharp b)
               sweepStartTime (_lidarFrame obj) out in
  let out := publishCloudMsg (_pubSurfPointsFlat obj) (surfacePointsFlat b)
               sweepStartTime (_lidarFrame obj) out in
  let out := publishCloudMsg (_pubSurfPointsLessFlat obj) (surfacePointsLessFlat b)
               sweepStartTime (_lidarFrame obj) out in
  publishCloudMsg (_pubImuTrans obj) (imuTransform b)
    sweepStartTime (_lidarFrame obj) out.

(** Gravity, of magnitude 9.81, along the axes of a sensor held at the given
    roll and pitch. *)
Definition gravity (roll pitch : R) : Vector3d :=
  {| v_x := - (sin pitch * 9.81);
     v_y := sin roll * cos pitch * 9.81;
     v_z := cos roll * cos pitch * 9.81 |}.

(** The six clouds of a sweep and the six publishers, in publishing order. *)
Definition sweep_clouds (b : Basic) : list PointCloud :=
  [ laserCloud b; cornerPointsSharp b; cornerPointsLessSharp b;
    surfacePointsFlat b; surfacePointsLessFlat b; imuTransform b ].

Definition sweep_publishers (obj : ScanRegistration) : list (option Publisher) :=
  [ _pubLaserCloud obj; _pubCornerPointsSharp obj; _pubCornerPointsLessSharp obj;
    _pubSurfPointsFlat obj; _pubSurfPointsLessFlat obj; _pubImuTrans obj ].

(** ** Reading a trace *)

Definition is_lookup (e : Event) : bool :=
  match e with TfLookup _ _ => true | _ => false end.

Definition is_sleep (e : Event) : bool :=
  match e with Sleep _ => true | _ => false end.

Definition is_setup (e : Event) : bool :=
  match e with Subscribe _ _ | Advertise _ _ => true | _ => false end.

(** Number of [lookupTransform] calls, of [sleep] calls and of
    [subscribe]/[advertise] calls in a trace. *)
Definition lookups (tr : list Event) : nat := List.length (filter is_lookup tr).

Definition sleeps (tr : list Event) : nat := List.length (filter is_sleep tr).

Definition setups (tr : list Event) : nat := List.length (filter is_setup tr).

(** The error line of a look-up that was given up. *)
Definition no_transform_msg : string :=
  "Cannot find transform from imu frame to lidar frame. Not transforming data.".

(** Every sleep in the trace lasts one second. *)
Definition backoff_fixed (tr : list Event) : Prop :=
  Forall (fun e => forall d, e = Sleep d -> d = 1%Q) tr.

(** ** The outcome of the validated options in closed form *)

(** The three tests a value is put to, as the conditions under which the
    code takes the [else] branch. *)
Definition positive (f : Float) : bool := negb (Float_leb f (Num 0)).

Definition at_least (bound : Z) (i : Z) : bool := negb (i <? bound).

Definition at_least_thousandth (f : Float) : bool :=
  negb (Float_ltb f (Num (1 # 1000))).

(** An option is let through when it is absent or passes its test. *)
Definition passes {A : Type} (test : A -> bool) (o : option A) : bool :=
  match o with Some v => test v | None => true end.

(** The value of a field after its option has been looked at. *)
Definition accepted {A : Type} (test : A -> bool) (o : option A) (old : A) : A :=
  match o with Some v => if test v then v else old | None => old end.

(** The implied default written to [maxCornerLessSharp] next to an accepted
    [maxCornerSharp]. *)
Definition implied_lessSharp (o : option Z) (old : Z) : Z :=
  match o with
  | Some v => if at_least 1 v then Int32.mul 10 v else old
  | None => old
  end.

Definition parsed_config (node privateNode : NodeHandle)
    (c : RegistrationParams) : RegistrationParams :=
  let sharp :=
    accepted (at_least 1) (getParam_int privateNode "maxCornerSharp")
      (maxCornerSharp c) in
  {| scanPeriod :=
       accepted positive (getParam_float node "scanPeriod") (scanPeriod c);
     imuHistorySize :=
       accepted (at_least 1) (getParam_int privateNode "imuHistorySize")
         (imuHistorySize c);
     nFeatureRegions :=
       accepted (at_least 1) (getParam_int privateNode "featureRegions")
         (nFeatureRegions c);
     curvatureRegion :=
       accepted (at_least 1) (getParam_int privateNode "curvatureRegion")
         (curvatureRegion c);
     maxCornerSharp := sharp;
     maxCornerLessSharp :=
       accepted (at_least sharp) (getParam_int privateNode "maxCornerLessSharp")
         (implied_lessSharp (getParam_int privateNode "maxCornerSharp")
            (maxCornerLessSharp c));
     maxSurfaceFlat :=
       accepted (at_least 1) (getParam_int privateNode "maxSurfaceFlat")
         (maxSurfaceFlat c);
     lessFlatFilterSize :=
       accepted at_least_thousandth
         (getParam_float privateNode "lessFlatFilterSize") (lessFlatFilterSize c);
     surfaceCurvatureThreshold :=
       accepted at_least_thousandth
         (getParam_float privateNode "surfaceCurvatureThreshold")
         (surfaceCurvatureThreshold c) |}.

Definition checks (node privateNode : NodeHandle) (c : RegistrationParams)
    : bool :=
  passes positive (getParam_float node "scanPeriod") &&
  passes (at_least 1) (getParam_int privateNode "imuHistorySize") &&
  passes (at_least 1) (getParam_int privateNode "featureRegions") &&
  passes (at_least 1) (getParam_int privateNode "curvatureRegion") &&
  passes (at_least 1) (getParam_int privateNode "maxCornerSharp") &&
  passes
    (at_least
       (accepted (at_least 1) (getParam_int privateNode "maxCornerSharp")
          (maxCornerSharp c)))
    (getParam_int privateNode "maxCornerLessSharp") &&
  passes (at_least 1) (getParam_int privateNode "maxSurfaceFlat") &&
  passes at_least_thousandth
    (getParam_float privateNode "surfaceCurvatureThreshold") &&
  passes at_least_thousandth (getParam_float privateNode "lessFlatFilterSize").

(** A list of log lines. *)
Definition only_logs (l : list Event) : Prop :=
  Forall (fun e => exists lvl fmt, e = RosLog lvl fmt) l.

(** What one option block does to the variables: it may clear [success],
    rewrite [config_out] and log; it leaves the object alone. *)
Definition block_spec (s s' : Frame) (ok : bool) (c' : RegistrationParams)
    : Prop :=
  success s' = success s && ok /\
  config_out s' = c' /\
  this s' = this s /\
  exists logs, trace s' = trace s ++ logs /\ only_logs logs.

(** ** The outcome of the unvalidated options in closed form *)

(** The value of a member after its option has been looked at. *)
Definition supplied {A : Type} (o : option A) (old : A) : A :=
  match o with Some v => v | None => old end.

Definition parsed_members (node : NodeHandle) (obj : ScanRegistration)
    : ScanRegistration :=
  {| _transformIMU :=
       supplied (getParam_bool node "transformImuData") (_transformIMU obj);
     _imuFrame := supplied (getParam_string node "imuFrame") (_imuFrame obj);
     _lidarFrame := supplied (getParam_string node "lidarFrame") (_lidarFrame obj);
     _imuInputTopic :=
       supplied (getParam_string node "imuInputTopic") (_imuInputTopic obj);
     _T_lidar_imu := _T_lidar_imu obj;
     _subImu := _subImu obj;
     _pubLaserCloud := _pubLaserCloud obj;
     _pubCornerPointsSharp := _pubCornerPointsSharp obj;
     _pubCornerPointsLessSharp := _pubCornerPointsLessSharp obj;
     _pubSurfPointsFlat := _pubSurfPointsFlat obj;
     _pubSurfPointsLessFlat := _pubSurfPointsLessFlat obj;
     _pubImuTrans := _pubImuTrans obj |}.

(** Two objects that agree on every member but [_transformIMU] and
    [_T_lidar_imu]. *)
Definition kept (a b : ScanRegistration) : Prop :=
  _imuFrame a = _imuFrame b /\
  _lidarFrame a = _lidarFrame b /\
  _imuInputTopic a = _imuInputTopic b /\
  _subImu a = _subImu b /\
  _pubLaserCloud a = _pubLaserCloud b /\
  _pubCornerPointsSharp a = _pubCornerPointsSharp b /\
  _pubCornerPointsLessSharp a = _pubCornerPointsLessSharp b /\
  _pubSurfPointsFlat a = _pubSurfPointsFlat b /\
  _pubSurfPointsLessFlat a = _pubSurfPointsLessFlat b /\
  _pubImuTrans a = _pubImuTrans b.

(** ** The constraints of the configuration table *)

(** A property asked of an option holds when the option is absent or its
    value has the property. *)
Definition holds {A : Type} (P : A -> Prop) (o : option A) : Prop :=
  match o with Some v => P v | None => True end.

(** The [maxCornerSharp] that [maxCornerLessSharp] is measured against: the
    supplied one, or else the one already in the configuration. *)
Definition maxCornerSharp_in_force (privateNode : NodeHandle)
    (c : RegistrationParams) : Z :=
  supplied (getParam_int privateNode "maxCornerSharp") (maxCornerSharp c).

(** None of the three [float] options is supplied as not-a-number. *)
Definition floats_are_numbers (node privateNode : NodeHandle) : Prop :=
  holds is_number (getParam_float node "scanPeriod") /\
  holds is_number (getParam_float privateNode "surfaceCurvatureThreshold") /\
  holds is_number (getParam_float privateNode "lessFlatFilterSize").

(** Every supplied option satisfies its constraint. *)
Definition constraints_met (node privateNode : NodeHandle)
    (c : RegistrationParams) : Prop :=
  holds (fun v => Float_lt (Num 0) v) (getParam_float node "scanPeriod") /\
  holds (fun v => 1 <= v) (getParam_int privateNode "imuHistorySize") /\
  holds (fun v => 1 <= v) (getParam_int privateNode "featureRegions") /\
  holds (fun v => 1 <= v) (getParam_int privateNode "curvatureRegion") /\
  holds (fun v => 1 <= v) (getParam_int privateNode "maxCornerSharp") /\
  holds (fun v => maxCornerSharp_in_force privateNode c <= v)
    (getParam_int privateNode "maxCornerLessSharp") /\
  holds (fun v => 1 <= v) (getParam_int privateNode "maxSurfaceFlat") /\
  holds (fun v => Float_le (Num (1 # 1000)) v)
    (getParam_float privateNode "surfaceCurvatureThreshold") /\
  holds (fun v => Float_le (Num (1 # 1000)) v)
    (getParam_float privateNode "lessFlatFilterSize").

(** ** Sample inputs *)

Definition lookup_key {A : Type} (kvs : list (string * A)) (k : string)
    : option A :=
  match find (fun kv => String.eqb (fst kv) k) kvs with
  | Some kv => Some (snd kv)
  | None => None
  end.

(** A node handle that serves the listed parameters and no others. *)
Definition node_of (floats : list (string * Float)) (ints : list (string * Z))
    (bools : list (string * bool)) (strings : list (string * string))
    : NodeHandle :=
  {| getParam_float := lookup_key floats;
     getParam_int := lookup_key ints;
     getParam_bool := lookup_key bools;
     getParam_string := lookup_key strings |}.

Definition no_params : NodeHandle := node_of [] [] [] [].

Definition sample_config : RegistrationParams :=
  {| scanPeriod := Num (1 # 10); imuHistorySize := 200; nFeatureRegions := 6;
     curvatureRegion := 5; maxCornerSharp := 2; maxCornerLessSharp := 20;
     maxSurfaceFlat := 4; lessFlatFilterSize := Num (2 # 10);
     surfaceCurvatureThreshold := Num (1 # 10) |}.

Definition identity_transform : TransformStamped :=
  {| tf_header := {| seq := 0; stamp := {| sec := 0; nsec := 0 |};
                     frame_id := "/camera" |};
     child_frame_id := "/imu";
     translation := Vector3d_zero;
     rotation := {| q_x := 0; q_y := 0; q_z := 0; q_w := 1 |} |}.

(** An object left over from an earlier configuration. *)
Definition stale_object : ScanRegistration :=
  {| _transformIMU := true; _imuFrame := "/old_imu"; _lidarFrame := "/old_lidar";
     _imuInputTopic := "/old_topic"; _T_lidar_imu := identity_transform;
     _subImu := None; _pubLaserCloud := None; _pubCornerPointsSharp := None;
     _pubCornerPointsLessSharp := None; _pubSurfPointsFlat := None;
     _pubSurfPointsLessFlat := None; _pubImuTrans := None |}.

(** An object on which [setupROS] has not run yet. *)
Definition fresh_object : ScanRegistration :=
  {| _transformIMU := false; _imuFrame := ""; _lidarFrame := "";
     _imuInputTopic := ""; _T_lidar_imu := identity_transform;
     _subImu := None; _pubLaserCloud := None; _pubCornerPointsSharp := None;
     _pubCornerPointsLessSharp := None; _pubSurfPointsFlat := None;
     _pubSurfPointsLessFlat := None; _pubImuTrans := None |}.

(** A buffer in which the transform never becomes available, and one in
    which it is there from the [n]-th look-up on. *)
Definition never_available : TfBuffer := fun _ _ _ => None.

Definition available_from (n : Z) : TfBuffer :=
  fun k _ _ => if k <? n then None else Some identity_transform.

(** Sample parameter servers. *)

(** A good [scanPeriod] on the public handle, a bad [imuHistorySize] on the
    private one. *)
Definition node_scanPeriod : NodeHandle := node_of [("scanPeriod", Num (1 # 5))] [] [] [].

Definition node_bad_history : NodeHandle :=
  node_of [] [("imuHistorySize", 0)] [] [].

(** A [scanPeriod] that is not a number, and nothing else. *)
Definition node_nan : NodeHandle := node_of [("scanPeriod", NaN)] [] [] [].

(** A [maxCornerSharp] whose tenfold does not fit an [int]. *)
Definition node_sharp_large : NodeHandle :=
  node_of [] [("maxCornerSharp", 214748365)] [] [].

(** [maxCornerSharp] alone. *)
Definition node_sharp_only : NodeHandle := node_of [] [("maxCornerSharp", 5)] [] [].

(** [maxCornerSharp] and a [maxCornerLessSharp] above it. *)
Definition node_sharp_and_less : NodeHandle :=
  node_of [] [("maxCornerSharp", 5); ("maxCornerLessSharp", 7)] [] [].

(** The rotation of inertial samples asked for. *)
Definition node_transform : NodeHandle :=
  node_of [] [] [("transformImuData", true)] [].

(** The handles of an object. *)
Definition handles (t : ScanRegistration)
    : option Subscriber * list (option Publisher) :=
  (_subImu t, sweep_publishers t).

(** Some supplied option is out of range; [sharp] is the [maxCornerSharp]
    that [maxCornerLessSharp] was measured against. *)
Definition some_supplied_rejected (node privateNode : NodeHandle) (sharp : Z)
    : Prop :=
  (exists v, getParam_float node "scanPeriod" = Some v /\ Float_le v (Num 0)) \/
  (exists v, getParam_int privateNode "imuHistorySize" = Some v /\ v < 1) \/
  (exists v, getParam_int privateNode "featureRegions" = Some v /\ v < 1) \/
  (exists v, getParam_int privateNode "curvatureRegion" = Some v /\ v < 1) \/
  (exists v, getParam_int privateNode "maxCornerSharp" = Some v /\ v < 1) \/
  (exists v, getParam_int privateNode "maxCornerLessSharp" = Some v /\ v < sharp) \/
  (exists v, getParam_int privateNode "maxSurfaceFlat" = Some v /\ v < 1) \/
  (exists v, getParam_float privateNode "surfaceCurvatureThreshold" = Some v /\
             Float_lt v (Num (1 # 1000))) \/
  (exists v, getParam_float privateNode "lessFlatFilterSize" = Some v /\
             Float_lt v (Num (1 # 1000))).

(** ** The look-up loop in closed form *)

(** The first of the look-ups numbered [k], [k + 1], ... ([n] of them) that
    finds the transform, with what it finds. *)
Fixpoint first_found (tfBuffer : TfBuffer) (target source : string)
    (k : Z) (n : nat) : option (Z * TransformStamped) :=
  match n with
  | O => None
  | S n' =>
      match tfBuffer k target source with
      | Some T => Some (k, T)
      | None => first_found tfBuffer target source (k + 1) n'
      end
  end.

(** What the loop has done when it exits, read off the buffer: with a first
    find at look-up [k] it has made [k] look-ups and slept after all but the
    last, holds the transform found, and keeps the rotation on only if
    [k <= 10]; with no find in eleven look-ups it has slept after each,
    holds the transform it had and has switched the rotation off. The
    look-ups already made at entry are [counter]. *)
Definition loop_outcome (tfBuffer : TfBuffer) (v r : LoopVars * Frame) : Prop :=
  let c := counter (fst v) in
  let obj := this (snd v) in
  match first_found tfBuffer (_lidarFrame obj) (_imuFrame obj) (c + 1)
          (Z.to_nat (11 - c)) with
  | Some (k, T) =>
      counter (fst r) = k /\
      _T_lidar_imu (this (snd r)) = T /\
      _transformIMU (this (snd r)) = (if k <=? 10 then _transformIMU obj else false) /\
      Z.of_nat (lookups (trace (snd r))) =
        Z.of_nat (lookups (trace (snd v))) + (k - c) /\
      Z.of_nat (sleeps (trace (snd r))) =
        Z.of_nat (sleeps (trace (snd v))) + (k - c - 1)
  | None =>
      counter (fst r) = 11 /\
      _T_lidar_imu (this (snd r)) = _T_lidar_imu obj /\
      _transformIMU (this (snd r)) = false /\
      Z.of_nat (lookups (trace (snd r))) =
        Z.of_nat (lookups (trace (snd v))) + (11 - c) /\
      Z.of_nat (sleeps (trace (snd r))) =
        Z.of_nat (sleeps (trace (snd v))) + (11 - c)
  end.

(** ** Reports and validity *)

(** An error line that reports a rejected option: each of the nine starts
    with "Invalid ". *)
Definition is_invalid_report (e : Event) : bool :=
  match e with
  | RosLog ERROR fmt => String.prefix "Invalid " fmt
  | _ => false
  end.

Definition reports (tr : list Event) : nat :=
  List.length (filter is_invalid_report tr).

(** One for an option that is supplied and fails its test, zero
    otherwise. *)
Definition rejected {A : Type} (test : A -> bool) (o : option A) : nat :=
  if passes test o then 0%nat else 1%nat.

(** The number of supplied options that are turned down. *)
Definition rejections (node privateNode : NodeHandle) (c : RegistrationParams)
    : nat :=
  (rejected positive (getParam_float node "scanPeriod") +
   rejected (at_least 1) (getParam_int privateNode "imuHistorySize") +
   rejected (at_least 1) (getParam_int privateNode "featureRegions") +
   rejected (at_least 1) (getParam_int privateNode "curvatureRegion") +
   rejected (at_least 1) (getParam_int privateNode "maxCornerSharp") +
   rejected
     (at_least
        (accepted (at_least 1) (getParam_int privateNode "maxCornerSharp")
           (maxCornerSharp c)))
     (getParam_int privateNode "maxCornerLessSharp") +
   rejected (at_least 1) (getParam_int privateNode "maxSurfaceFlat") +
   rejected at_least_thousandth
     (getParam_float privateNode "surfaceCurvatureThreshold") +
   rejected at_least_thousandth
     (getParam_float privateNode "lessFlatFilterSize"))%nat.

(** A configuration in which every field is in the range its option is
    held to. *)
Definition valid_config (c : RegistrationParams) : Prop :=
  Float_lt (Num 0) (scanPeriod c) /\
  1 <= imuHistorySize c /\
  1 <= nFeatureRegions c /\
  1 <= curvatureRegion c /\
  1 <= maxCornerSharp c /\
  maxCornerSharp c <= maxCornerLessSharp c /\
  1 <= maxSurfaceFlat c /\
  Float_le (Num (1 # 1000)) (surfaceCurvatureThreshold c) /\
  Float_le (Num (1 # 1000)) (lessFlatFilterSize c).

(** The six publishers [setupROS] creates, in the order of
    [sweep_publishers]. *)
Definition advertised : list Publisher :=
  [ advertise "velodyne_cloud_2" 2;
    advertise "laser_cloud_sharp" 2;
    advertise "laser_cloud_less_sharp" 2;
    advertise "laser_cloud_flat" 2;
    advertise "laser_cloud_less_flat" 2;
    advertise "imu_trans" 5 ].

(** * Properties *)

(** ** Floating-point comparisons *)

(** Not-a-number is below nothing and nothing is below it. *)
Lemma Float_NaN_unordered (a : Float) :
  Float_leb NaN a = false /\ Float_leb a NaN = false /\
  Float_ltb NaN a = false /\ Float_ltb a NaN = false.
Proof. destruct a as [| [|] | q]; repeat split. Qed.

(** On numbers [a < b] is the negation of [b <= a]. *)
Lemma Float_ltb_numbers (a b : Float) :
  is_number a -> is_number b -> Float_ltb a b = negb (Float_leb b a).
Proof.
  unfold is_number.
  destruct a as [| m | p]; destruct b as [| n | q]; intros Ha Hb;
    try contradiction; reflexivity.
Qed.

(** ** Machine integers *)

Lemma Int32_wrap_in_range (z : Z) : Int32.in_range z -> Int32.wrap z = z.
Proof.
  unfold Int32.in_range, Int32.wrap, Int32.min_int, Int32.max_int. intros Hz.
  rewrite Z.mod_small by lia. lia.
Qed.

Lemma Int32_wrap_range (z : Z) : Int32.in_range (Int32.wrap z).
Proof.
  unfold Int32.in_range, Int32.wrap, Int32.min_int, Int32.max_int.
  pose proof (Z.mod_pos_bound (z - -2147483648) 4294967296 ltac:(lia)). lia.
Qed.

Lemma Int32_mul_exact (a b : Z) :
  Int32.in_range (a * b) -> Int32.mul a b = a * b.
Proof. apply Int32_wrap_in_range. Qed.

(** ** The look-up loop *)

Lemma lookup_iteration_counter (tfBuffer : TfBuffer) (v : LoopVars * Frame) :
  counter (fst (lookup_iteration tfBuffer v)) = counter (fst v) + 1.
Proof.
  unfold lookup_iteration.
  destruct (10 <? counter (fst v) + 1); reflexivity.
Qed.

Lemma lookup_iteration_found (tfBuffer : TfBuffer) (v : LoopVars * Frame) :
  transform_found (fst (lookup_iteration tfBuffer v)) =
  (10 <? counter (fst v) + 1) ||
  match tfBuffer (counter (fst v) + 1)
          (_lidarFrame (this (snd v))) (_imuFrame (this (snd v))) with
  | Some _ => true
  | None => false
  end.
Proof.
  unfold lookup_iteration.
  destruct (10 <? counter (fst v) + 1); cbn [fst snd transform_found orb];
    [reflexivity |].
  cbn [emit this].
  destruct (tfBuffer _ _ _); reflexivity.
Qed.

(** Induction along the passes of the loop: a relation between the state
    at loop entry and at loop exit holds as soon as it holds for a last
    pass and extends backwards over a pass that leaves the guard true. *)
Lemma lookup_retry_rel (tfBuffer : TfBuffer)
    (P : LoopVars * Frame -> LoopVars * Frame -> Prop) :
  (forall v, transform_found (fst (lookup_iteration tfBuffer v)) = true ->
             P v (lookup_iteration tfBuffer v)) ->
  (forall v r, transform_found (fst (lookup_iteration tfBuffer v)) = false ->
               P (lookup_iteration tfBuffer v) r -> P v r) ->
  forall v, P v (lookup_retry tfBuffer v).
Proof.
  intros Hlast Hmore v.
  funelim (lookup_retry tfBuffer v).
  - apply Hlast. assumption.
  - apply Hmore; [assumption |].
    match goal with
    | IH : forall Q : LoopVars * Frame -> LoopVars * Frame -> Prop, _ |- _ =>
        apply IH; assumption
    end.
Qed.

(** The loop exits with its guard false. *)
Lemma lookup_retry_found (tfBuffer : TfBuffer) (v : LoopVars * Frame) :
  transform_found (fst (lookup_retry tfBuffer v)) = true.
Proof.
  apply (lookup_retry_rel tfBuffer
           (fun _ r => transform_found (fst r) = true)); auto.
Qed.

(** A property of the variables that every pass preserves holds at exit. *)
Lemma lookup_retry_inv (tfBuffer : TfBuffer) (Q : Frame -> Prop) :
  (forall v, Q (snd v) -> Q (snd (lookup_iteration tfBuffer v))) ->
  forall v, Q (snd v) -> Q (snd (lookup_retry tfBuffer v)).
Proof.
  intros Hstep.
  apply (lookup_retry_rel tfBuffer (fun v r => Q (snd v) -> Q (snd r))); auto.
Qed.

Lemma lookups_app (a b : list Event) :
  lookups (a ++ b) = (lookups a + lookups b)%nat.
Proof. unfold lookups. rewrite filter_app, length_app. reflexivity. Qed.

Lemma sleeps_app (a b : list Event) :
  sleeps (a ++ b) = (sleeps a + sleeps b)%nat.
Proof. unfold sleeps. rewrite filter_app, length_app. reflexivity. Qed.

Lemma setups_app (a b : list Event) :
  setups (a ++ b) = (setups a + setups b)%nat.
Proof. unfold setups. rewrite filter_app, length_app. reflexivity. Qed.

Lemma backoff_fixed_app (a b : list Event) :
  backoff_fixed a -> backoff_fixed b -> backoff_fixed (a ++ b).
Proof. unfold backoff_fixed. intros. apply Forall_app. split; assumption. Qed.

(** What one pass adds to the trace: one look-up, at most one sleep, of one
    second, and nothing that sets up a topic. *)
Lemma lookup_iteration_trace (tfBuffer : TfBuffer) (v : LoopVars * Frame) :
  exists added,
    trace (snd (lookup_iteration tfBuffer v)) = trace (snd v) ++ added /\
    lookups added = 1%nat /\ (sleeps added <= 1)%nat /\ setups added = 0%nat /\
    backoff_fixed added.
Proof.
  unfold lookup_iteration.
  destruct (10 <? counter (fst v) + 1);
    destruct (tfBuffer _ _ _); cbn [fst snd trace emit log with_this];
    repeat rewrite <- app_assoc; eexists; (split; [reflexivity |]);
    cbn; repeat split; try lia;
    repeat constructor; intros d Hd; try discriminate;
    injection Hd as <-; reflexivity.
Qed.

(** The exit state against the entry state: the counter has advanced by the
    number of look-ups made and has not passed eleven (unless it already
    had), and the trace has grown by those look-ups, no more sleeps than
    look-ups, each of one second. *)
Lemma lookup_retry_trace (tfBuffer : TfBuffer) (v : LoopVars * Frame) :
  counter (fst v) < counter (fst (lookup_retry tfBuffer v))
    <= Z.max 11 (counter (fst v) + 1) /\
  exists added,
    trace (snd (lookup_retry tfBuffer v)) = trace (snd v) ++ added /\
    Z.of_nat (lookups added) =
      counter (fst (lookup_retry tfBuffer v)) - counter (fst v) /\
    (sleeps added <= lookups added)%nat /\ setups added = 0%nat /\
    backoff_fixed added.
Proof.
  apply (lookup_retry_rel tfBuffer (fun v r =>
    counter (fst v) < counter (fst r) <= Z.max 11 (counter (fst v) + 1) /\
    exists added,
      trace (snd r) = trace (snd v) ++ added /\
      Z.of_nat (lookups added) = counter (fst r) - counter (fst v) /\
      (sleeps added <= lookups added)%nat /\ setups added = 0%nat /\
      backoff_fixed added)); clear v.
  - intros v _. rewrite lookup_iteration_counter. split; [lia |].
    destruct (lookup_iteration_trace tfBuffer v) as (added & Ht & Hl & Hs & Hp & Hb).
    exists added. repeat split; try assumption; lia.
  - intros v r Hguard [Hc (added & Ht & Hl & Hs & Hp & Hb)].
    rewrite lookup_iteration_counter in *.
    pose proof (lookup_iteration_found tfBuffer v) as Hf.
    rewrite Hguard in Hf. symmetry in Hf. apply orb_false_elim in Hf.
    destruct Hf as [Hf _]. apply Z.ltb_ge in Hf.
    split; [lia |].
    destruct (lookup_iteration_trace tfBuffer v) as (one & Ht1 & Hl1 & Hs1 & Hp1 & Hb1).
    exists (one ++ added). rewrite Ht, Ht1, <- app_assoc.
    rewrite lookups_app, sleeps_app, setups_app.
    repeat split; try lia. apply backoff_fixed_app; assumption.
Qed.

(** ** The option blocks *)

Lemma only_logs_nil : only_logs [].
Proof. constructor. Qed.

Lemma only_logs_one (lvl : LogLevel) (fmt : string) : only_logs [RosLog lvl fmt].
Proof. constructor; [do 2 eexists; reflexivity | constructor]. Qed.

Lemma only_logs_app (a b : list Event) :
  only_logs a -> only_logs b -> only_logs (a ++ b).
Proof. unfold only_logs. intros. apply Forall_app. split; assumption. Qed.

Ltac block_cases :=
  intros;
  match goal with |- block_spec ?s (?blk ?n ?s) _ _ => unfold blk end;
  match goal with
  | |- context [match ?o with Some _ => _ | None => _ end] =>
      destruct o as [v |]
  end;
  match goal with s : Frame |- _ => destruct s as [ok c obj tr]; destruct c end;
  unfold block_spec, accepted, passes, implied_lessSharp, positive, at_least,
    at_least_thousandth;
  cbn [success config_out this trace reject log with_config];
  try match goal with
      | |- context [if ?b then _ else _] => destruct b
      end;
  cbn;
  rewrite ?andb_true_r, ?andb_false_r;
  repeat split;
  solve [ exists []; rewrite app_nil_r; split; [reflexivity | apply only_logs_nil]
        | eexists; split; [reflexivity | apply only_logs_one] ].

Lemma parse_scanPeriod_spec (node : NodeHandle) (s : Frame) :
  block_spec s (parse_scanPeriod node s)
    (passes positive (getParam_float node "scanPeriod"))
    (set_scanPeriod
       (accepted positive (getParam_float node "scanPeriod")
          (scanPeriod (config_out s)))
       (config_out s)).
Proof. block_cases. Qed.

Lemma parse_imuHistorySize_spec (privateNode : NodeHandle) (s : Frame) :
  block_spec s (parse_imuHistorySize privateNode s)
    (passes (at_least 1) (getParam_int privateNode "imuHistorySize"))
    (set_imuHistorySize
       (accepted (at_least 1) (getParam_int privateNode "imuHistorySize")
          (imuHistorySize (config_out s)))
       (config_out s)).
Proof. block_cases. Qed.

Lemma parse_featureRegions_spec (privateNode : NodeHandle) (s : Frame) :
  block_spec s (parse_featureRegions privateNode s)
    (passes (at_least 1) (getParam_int privateNode "featureRegions"))
    (set_nFeatureRegions
       (accepted (at_least 1) (getParam_int privateNode "featureRegions")
          (nFeatureRegions (config_out s)))
       (config_out s)).
Proof. block_cases. Qed.

Lemma parse_curvatureRegion_spec (privateNode : NodeHandle) (s : Frame) :
  block_spec s (parse_curvatureRegion privateNode s)
    (passes (at_least 1) (getParam_int privateNode "curvatureRegion"))
    (set_curvatureRegion
       (accepted (at_least 1) (getParam_int privateNode "curvatureRegion")
          (curvatureRegion (config_out s)))
       (config_out s)).
Proof. block_cases. Qed.

Lemma parse_maxCornerSharp_spec (privateNode : NodeHandle) (s : Frame) :
  block_spec s (parse_maxCornerSharp privateNode s)
    (passes (at_least 1) (getParam_int privateNode "maxCornerSharp"))
    (set_maxCornerLessSharp
       (implied_lessSharp (getParam_int privateNode "maxCornerSharp")
          (maxCornerLessSharp (config_out s)))
       (set_maxCornerSharp
          (accepted (at_least 1) (getParam_int privateNode "maxCornerSharp")
             (maxCornerSharp (config_out s)))
          (config_out s))).
Proof. block_cases. Qed.

Lemma parse_maxCornerLessSharp_spec (privateNode : NodeHandle) (s : Frame) :
  block_spec s (parse_maxCornerLessSharp privateNode s)
    (passes (at_least (maxCornerSharp (config_out s)))
       (getParam_int privateNode "maxCornerLessSharp"))
    (set_maxCornerLessSharp
       (accepted (at_least (maxCornerSharp (config_out s)))
          (getParam_int privateNode "maxCornerLessSharp")
          (maxCornerLessSharp (config_out s)))
       (config_out s)).
Proof. block_cases. Qed.

Lemma parse_maxSurfaceFlat_spec (privateNode : NodeHandle) (s : Frame) :
  block_spec s (parse_maxSurfaceFlat privateNode s)
    (passes (at_least 1) (getParam_int privateNode "maxSurfaceFlat"))
    (set_maxSurfaceFlat
       (accepted (at_least 1) (getParam_int privateNode "maxSurfaceFlat")
          (maxSurfaceFlat (config_out s)))
       (config_out s)).
Proof. block_cases. Qed.

Lemma parse_surfaceCurvatureThreshold_spec (privateNode : NodeHandle) (s : Frame) :
  block_spec s (parse_surfaceCurvatureThreshold privateNode s)
    (passes at_least_thousandth
       (getParam_float privateNode "surfaceCurvatureThreshold"))
    (set_surfaceCurvatureThreshold
       (accepted at_least_thousandth
          (getParam_float privateNode "surfaceCurvatureThreshold")
          (surfaceCurvatureThreshold (config_out s)))
       (config_out s)).
Proof. block_cases. Qed.

Lemma parse_lessFlatFilterSize_spec (privateNode : NodeHandle) (s : Frame) :
  block_spec s (parse_lessFlatFilterSize privateNode s)
    (passes at_least_thousandth (getParam_float privateNode "lessFlatFilterSize"))
    (set_lessFlatFilterSize
       (accepted at_least_thousandth
          (getParam_float privateNode "lessFlatFilterSize")
          (lessFlatFilterSize (config_out s)))
       (config_out s)).
Proof. block_cases. Qed.

(** Two blocks in a row. *)
Lemma block_spec_seq (s1 s2 s3 : Frame) (ok1 ok2 : bool)
    (c2 c3 : RegistrationParams) :
  block_spec s1 s2 ok1 c2 -> block_spec s2 s3 ok2 c3 ->
  block_spec s1 s3 (ok1 && ok2) c3.
Proof.
  intros (Hs1 & Hc1 & Ht1 & l1 & Htr1 & Hl1) (Hs2 & Hc2 & Ht2 & l2 & Htr2 & Hl2).
  unfold block_spec. repeat split.
  - rewrite Hs2, Hs1, andb_assoc. reflexivity.
  - assumption.
  - congruence.
  - exists (l1 ++ l2). split.
    + rewrite Htr2, Htr1, app_assoc. reflexivity.
    + apply only_logs_app; assumption.
Qed.

(** The nine validated options together. *)
Lemma parse_config_spec (node privateNode : NodeHandle) (s : Frame) :
  block_spec s (parse_config node privateNode s)
    (checks node privateNode (config_out s))
    (parsed_config node privateNode (config_out s)).
Proof.
  unfold parse_config.
  pose proof (parse_scanPeriod_spec node s) as H1.
  set (s1 := parse_scanPeriod node s) in *.
  pose proof (parse_imuHistorySize_spec privateNode s1) as H2.
  set (s2 := parse_imuHistorySize privateNode s1) in *.
  pose proof (parse_featureRegions_spec privateNode s2) as H3.
  set (s3 := parse_featureRegions privateNode s2) in *.
  pose proof (parse_curvatureRegion_spec privateNode s3) as H4.
  set (s4 := parse_curvatureRegion privateNode s3) in *.
  pose proof (parse_maxCornerSharp_spec privateNode s4) as H5.
  set (s5 := parse_maxCornerSharp privateNode s4) in *.
  pose proof (parse_maxCornerLessSharp_spec privateNode s5) as H6.
  set (s6 := parse_maxCornerLessSharp privateNode s5) in *.
  pose proof (parse_maxSurfaceFlat_spec privateNode s6) as H7.
  set (s7 := parse_maxSurfaceFlat privateNode s6) in *.
  pose proof (parse_surfaceCurvatureThreshold_spec privateNode s7) as H8.
  set (s8 := parse_surfaceCurvatureThreshold privateNode s7) in *.
  pose proof (parse_lessFlatFilterSize_spec privateNode s8) as H9.
  set (s9 := parse_lessFlatFilterSize privateNode s8) in *.
  pose proof (proj1 (proj2 H1)) as C1. pose proof (proj1 (proj2 H2)) as C2.
  pose proof (proj1 (proj2 H3)) as C3. pose proof (proj1 (proj2 H4)) as C4.
  pose proof (proj1 (proj2 H5)) as C5. pose proof (proj1 (proj2 H6)) as C6.
  pose proof (proj1 (proj2 H7)) as C7. pose proof (proj1 (proj2 H8)) as C8.
  rewrite C8, C7, C6, C5, C4, C3, C2, C1 in H9.
  rewrite C5, C4, C3, C2, C1 in H6.
  pose proof (block_spec_seq _ _ _ _ _ _ _
    (block_spec_seq _ _ _ _ _ _ _
      (block_spec_seq _ _ _ _ _ _ _
        (block_spec_seq _ _ _ _ _ _ _
          (block_spec_seq _ _ _ _ _ _ _
            (block_spec_seq _ _ _ _ _ _ _
              (block_spec_seq _ _ _ _ _ _ _
                (block_spec_seq _ _ _ _ _ _ _ H1 H2) H3) H4) H5) H6) H7) H8) H9)
    as H.
  exact H.
Qed.

(** ** The members and the transform *)

Lemma only_logs_quiet (l : list Event) :
  only_logs l ->
  lookups l = 0%nat /\ sleeps l = 0%nat /\ setups l = 0%nat /\ backoff_fixed l.
Proof.
  unfold only_logs, lookups, sleeps, setups, backoff_fixed.
  induction 1 as [| e l (lvl & fmt & ->) _ (IH1 & IH2 & IH3 & IH4)]; cbn.
  - repeat split. constructor.
  - repeat split; try assumption.
    constructor; [intros d Hd; discriminate | assumption].
Qed.

Lemma parse_members_spec (node : NodeHandle) (s : Frame) :
  success (parse_members node s) = success s /\
  config_out (parse_members node s) = config_out s /\
  this (parse_members node s) = parsed_members node (this s) /\
  exists logs, trace (parse_members node s) = trace s ++ logs /\ only_logs logs.
Proof.
  unfold parse_members, parse_lidarFrame, parse_imuFrame, parse_transformImuData,
    parse_imuInputTopic, parsed_members, supplied.
  destruct s as [ok c obj tr]. destruct obj.
  destruct (getParam_string node "lidarFrame");
    destruct (getParam_string node "imuFrame");
    destruct (getParam_bool node "transformImuData");
    destruct (getParam_string node "imuInputTopic");
    cbn; repeat split;
    repeat rewrite <- app_assoc;
    solve [ exists []; rewrite app_nil_r; split; [reflexivity | apply only_logs_nil]
          | eexists; split; [reflexivity |];
            repeat (apply Forall_cons; [do 2 eexists; reflexivity |]);
            apply Forall_nil ].
Qed.

Lemma kept_refl (a : ScanRegistration) : kept a a.
Proof. unfold kept. repeat split. Qed.

Lemma kept_trans (a b c : ScanRegistration) : kept a b -> kept b c -> kept a c.
Proof. unfold kept. intuition congruence. Qed.

(** A pass touches neither [success] nor [config_out], and of the object
    only [_transformIMU] and [_T_lidar_imu]. *)
Lemma lookup_iteration_keeps (tfBuffer : TfBuffer) (v : LoopVars * Frame) :
  success (snd (lookup_iteration tfBuffer v)) = success (snd v) /\
  config_out (snd (lookup_iteration tfBuffer v)) = config_out (snd v) /\
  kept (this (snd (lookup_iteration tfBuffer v))) (this (snd v)).
Proof.
  unfold lookup_iteration.
  destruct (10 <? counter (fst v) + 1);
    destruct (tfBuffer _ _ _); cbn; (repeat split; try apply kept_refl).
Qed.

Lemma lookup_retry_keeps (tfBuffer : TfBuffer) (v : LoopVars * Frame) :
  success (snd (lookup_retry tfBuffer v)) = success (snd v) /\
  config_out (snd (lookup_retry tfBuffer v)) = config_out (snd v) /\
  kept (this (snd (lookup_retry tfBuffer v))) (this (snd v)).
Proof.
  apply (lookup_retry_inv tfBuffer (fun s =>
    success s = success (snd v) /\ config_out s = config_out (snd v) /\
    kept (this s) (this (snd v)))).
  - intros w (Hs & Hc & Hk).
    destruct (lookup_iteration_keeps tfBuffer w) as (Hs' & Hc' & Hk').
    split; [congruence | split; [congruence |]].
    eapply kept_trans; eassumption.
  - split; [reflexivity | split; [reflexivity | apply kept_refl]].
Qed.

(** A pass that takes the counter past ten switches the rotation off and
    says so. *)
Lemma lookup_iteration_gives_up (tfBuffer : TfBuffer) (v : LoopVars * Frame) :
  (10 <? counter (fst v) + 1) = true ->
  _transformIMU (this (snd (lookup_iteration tfBuffer v))) = false /\
  In (RosLog ERROR no_transform_msg) (trace (snd (lookup_iteration tfBuffer v))).
Proof.
  unfold lookup_iteration. intros ->.
  cbn [snd this trace with_this log set_transformIMU _transformIMU].
  split; [reflexivity |].
  apply in_or_app. right. left. reflexivity.
Qed.

(** When every look-up the loop can still make fails, it leaves with the
    rotation switched off and the failure logged. *)
Lemma lookup_retry_exhausted (tfBuffer : TfBuffer) (v : LoopVars * Frame) :
  (forall k, counter (fst v) < k <= 11 ->
     tfBuffer k (_lidarFrame (this (snd v))) (_imuFrame (this (snd v))) = None) ->
  _transformIMU (this (snd (lookup_retry tfBuffer v))) = false /\
  In (RosLog ERROR no_transform_msg) (trace (snd (lookup_retry tfBuffer v))).
Proof.
  apply (lookup_retry_rel tfBuffer (fun v r =>
    (forall k, counter (fst v) < k <= 11 ->
       tfBuffer k (_lidarFrame (this (snd v))) (_imuFrame (this (snd v))) = None) ->
    _transformIMU (this (snd r)) = false /\
    In (RosLog ERROR no_transform_msg) (trace (snd r)))); clear v.
  - intros v Hfound Hnone.
    rewrite lookup_iteration_found in Hfound.
    destruct (10 <? counter (fst v) + 1) eqn:Hc.
    + apply lookup_iteration_gives_up. exact Hc.
    + apply Z.ltb_ge in Hc. rewrite Hnone in Hfound by lia. discriminate.
  - intros v r _ IH Hnone. apply IH. intros k Hk.
    rewrite lookup_iteration_counter in Hk.
    destruct (lookup_iteration_keeps tfBuffer v) as (_ & _ & Hi & Hl & _).
    rewrite Hi, Hl. apply Hnone. lia.
Qed.

Lemma resolve_transform_spec (tfBuffer : TfBuffer) (s : Frame) :
  success (resolve_transform tfBuffer s) = success s /\
  config_out (resolve_transform tfBuffer s) = config_out s /\
  kept (this (resolve_transform tfBuffer s)) (this s) /\
  exists added,
    trace (resolve_transform tfBuffer s) = trace s ++ added /\
    (lookups added <= 11)%nat /\ (sleeps added <= lookups added)%nat /\
    setups added = 0%nat /\ backoff_fixed added.
Proof.
  unfold resolve_transform, lookup_while.
  destruct (_transformIMU (this s)); cbn [fst transform_found].
  - set (v := ({| transform_found := false; counter := 0 |}, s)).
    destruct (lookup_retry_keeps tfBuffer v) as (Hs & Hc & Hk).
    destruct (lookup_retry_trace tfBuffer v) as (Hn & added & Ht & Hl & Hsl & Hp & Hb).
    split; [exact Hs | split; [exact Hc | split; [exact Hk |]]].
    exists added. subst v. cbn [fst snd counter] in *.
    repeat split; try assumption. lia.
  - split; [reflexivity | split; [reflexivity | split; [apply kept_refl |]]].
    exists []. rewrite app_nil_r. cbn. repeat split; try lia. constructor.
Qed.

Lemma resolve_transform_off (tfBuffer : TfBuffer) (s : Frame) :
  _transformIMU (this s) = false -> resolve_transform tfBuffer s = s.
Proof. unfold resolve_transform. intros ->. reflexivity. Qed.

(** ** parseParams and setupROS as a whole *)

Lemma parseParams_spec (node privateNode : NodeHandle) (tfBuffer : TfBuffer)
    (config : RegistrationParams) (obj : ScanRegistration) (tr : list Event) :
  success (parseParams node privateNode tfBuffer config obj tr) =
    checks node privateNode config /\
  config_out (parseParams node privateNode tfBuffer config obj tr) =
    parsed_config node privateNode config /\
  kept (this (parseParams node privateNode tfBuffer config obj tr))
    (parsed_members node obj) /\
  exists added,
    trace (parseParams node privateNode tfBuffer config obj tr) = tr ++ added /\
    (lookups added <= 11)%nat /\ (sleeps added <= lookups added)%nat /\
    setups added = 0%nat /\ backoff_fixed added.
Proof.
  unfold parseParams.
  set (s0 := {| success := true; config_out := config; this := obj; trace := tr |}).
  destruct (parse_config_spec node privateNode s0) as (S1 & C1 & T1 & l1 & E1 & L1).
  set (s1 := parse_config node privateNode s0) in *.
  destruct (parse_members_spec node s1) as (S2 & C2 & T2 & l2 & E2 & L2).
  set (s2 := parse_members node s1) in *.
  destruct (resolve_transform_spec tfBuffer s2)
    as (S3 & C3 & K3 & l3 & E3 & N3 & Sl3 & P3 & B3).
  destruct (only_logs_quiet l1 L1) as (A1 & A2 & A3 & A4).
  destruct (only_logs_quiet l2 L2) as (B1 & B2 & B3' & B4).
  split; [rewrite S3, S2, S1; reflexivity |].
  split; [rewrite C3, C2, C1; reflexivity |].
  split; [rewrite T2, T1 in K3; exact K3 |].
  exists (l1 ++ l2 ++ l3). split.
  - rewrite E3, E2, E1. cbn [trace s0]. rewrite <- !app_assoc. reflexivity.
  - rewrite !lookups_app, !sleeps_app, !setups_app.
    repeat split; try lia.
    apply backoff_fixed_app; [assumption | apply backoff_fixed_app; assumption].
Qed.

Lemma setupROS_spec (node privateNode : NodeHandle) (tfBuffer : TfBuffer)
    (config : RegistrationParams) (obj : ScanRegistration) (tr : list Event) :
  success (setupROS node privateNode tfBuffer config obj tr) =
    success (parseParams node privateNode tfBuffer config (reset_members obj) tr) /\
  config_out (setupROS node privateNode tfBuffer config obj tr) =
    config_out (parseParams node privateNode tfBuffer config (reset_members obj) tr).
Proof.
  unfold setupROS.
  destruct (success (parseParams _ _ _ _ _ _)); split; reflexivity.
Qed.

(** ** The tests against the constraints *)

Lemma positive_iff (f : Float) :
  is_number f -> (positive f = true <-> Float_lt (Num 0) f).
Proof.
  unfold is_number, positive, Float_lt, Float_ltb.
  destruct f as [| n | q]; [intros H; contradiction | |]; intros _; reflexivity.
Qed.

Lemma positive_of_lt (f : Float) : Float_lt (Num 0) f -> positive f = true.
Proof.
  destruct f as [| n | q]; [discriminate | |]; intros H; exact H.
Qed.

Lemma at_least_iff (bound i : Z) : at_least bound i = true <-> bound <= i.
Proof. unfold at_least. rewrite negb_true_iff. apply Z.ltb_ge. Qed.

Lemma at_least_thousandth_iff (f : Float) :
  is_number f -> (at_least_thousandth f = true <-> Float_le (Num (1 # 1000)) f).
Proof.
  unfold is_number, at_least_thousandth, Float_le, Float_ltb.
  destruct f as [| n | q]; [intros H; contradiction | |]; intros _;
    rewrite negb_involutive; reflexivity.
Qed.

Lemma at_least_thousandth_of_le (f : Float) :
  Float_le (Num (1 # 1000)) f -> at_least_thousandth f = true.
Proof.
  destruct f as [| n | q]; [discriminate | |]; intros H;
    apply at_least_thousandth_iff; [discriminate | exact H | discriminate | exact H].
Qed.

Lemma passes_iff {A : Type} (test : A -> bool) (P : A -> Prop) (o : option A) :
  (forall v, test v = true <-> P v) -> (passes test o = true <-> holds P o).
Proof.
  intros H. destruct o as [v |]; cbn; [apply H | tauto].
Qed.

Lemma passes_iff_on {A : Type} (N : A -> Prop) (test : A -> bool)
    (P : A -> Prop) (o : option A) :
  holds N o -> (forall v, N v -> (test v = true <-> P v)) ->
  (passes test o = true <-> holds P o).
Proof.
  intros HN H. destruct o as [v |]; cbn in *; [apply H; exact HN | tauto].
Qed.

Lemma passes_of_holds {A : Type} (test : A -> bool) (P : A -> Prop)
    (o : option A) :
  (forall v, P v -> test v = true) -> holds P o -> passes test o = true.
Proof.
  intros H. destruct o as [v |]; cbn; [apply H | reflexivity].
Qed.

(** Options that satisfy their constraints pass the checks. *)
Lemma constraints_pass (node privateNode : NodeHandle) (c : RegistrationParams) :
  constraints_met node privateNode c -> checks node privateNode c = true.
Proof.
  unfold checks, constraints_met, maxCornerSharp_in_force.
  intros (H1 & H2 & H3 & H4 & H5 & H6 & H7 & H8 & H9).
  rewrite (passes_of_holds positive _ _ positive_of_lt H1).
  rewrite (passes_of_holds (at_least 1) _ _ (fun v => proj2 (at_least_iff 1 v)) H2).
  rewrite (passes_of_holds (at_least 1) _ _ (fun v => proj2 (at_least_iff 1 v)) H3).
  rewrite (passes_of_holds (at_least 1) _ _ (fun v => proj2 (at_least_iff 1 v)) H4).
  rewrite (passes_of_holds (at_least 1) _ _ (fun v => proj2 (at_least_iff 1 v)) H7).
  rewrite (passes_of_holds at_least_thousandth _ _ at_least_thousandth_of_le H8).
  rewrite (passes_of_holds at_least_thousandth _ _ at_least_thousandth_of_le H9).
  destruct (getParam_int privateNode "maxCornerSharp") as [v |];
    cbn [accepted supplied holds passes] in *.
  - rewrite (proj2 (at_least_iff 1 v) H5).
    rewrite (passes_of_holds (at_least v) _ _ (fun w => proj2 (at_least_iff v w)) H6).
    reflexivity.
  - rewrite (passes_of_holds (at_least (maxCornerSharp c)) _ _
               (fun w => proj2 (at_least_iff (maxCornerSharp c) w)) H6).
    reflexivity.
Qed.

(** When no [float] option is not-a-number, the checks pass exactly when the
    constraints are met. *)
Lemma checks_iff_on_numbers (node privateNode : NodeHandle)
    (c : RegistrationParams) :
  floats_are_numbers node privateNode ->
  (checks node privateNode c = true <-> constraints_met node privateNode c).
Proof.
  intros (N1 & N2 & N3).
  unfold checks, constraints_met, maxCornerSharp_in_force.
  rewrite !andb_true_iff.
  rewrite (passes_iff_on is_number positive _ _ N1 positive_iff).
  rewrite !(passes_iff (at_least 1) _ _ (at_least_iff 1)).
  rewrite (passes_iff_on is_number at_least_thousandth _ _ N2
             at_least_thousandth_iff).
  rewrite (passes_iff_on is_number at_least_thousandth _ _ N3
             at_least_thousandth_iff).
  destruct (getParam_int privateNode "maxCornerSharp") as [v |];
    cbn [accepted supplied holds].
  - destruct (at_least 1 v) eqn:E.
    + rewrite (passes_iff _ _ _ (at_least_iff v)). tauto.
    + assert (~ 1 <= v) by (rewrite <- at_least_iff; congruence). tauto.
  - rewrite (passes_iff _ _ _ (at_least_iff (maxCornerSharp c))). tauto.
Qed.

(** Both functions return [true] on options that satisfy their
    constraints. *)
Lemma returns_true_on_constraints
    (node privateNode : NodeHandle) (tfBuffer : TfBuffer)
    (config : RegistrationParams) (obj : ScanRegistration) (tr : list Event) :
  constraints_met node privateNode config ->
  success (parseParams node privateNode tfBuffer config obj tr) = true /\
  success (setupROS node privateNode tfBuffer config obj tr) = true.
Proof.
  intros Hmet. apply constraints_pass in Hmet.
  destruct (setupROS_spec node privateNode tfBuffer config obj tr) as [Hs _].
  destruct (parseParams_spec node privateNode tfBuffer config obj tr) as [Hp _].
  destruct (parseParams_spec node privateNode tfBuffer config (reset_members obj) tr)
    as [Hr _].
  rewrite Hs, Hr, Hp. split; exact Hmet.
Qed.

(** ** The two functions, further *)

(** [parseParams] up to its last step. *)
Lemma parseParams_before_lookup (node privateNode : NodeHandle)
    (tfBuffer : TfBuffer) (config : RegistrationParams)
    (obj : ScanRegistration) (tr : list Event) :
  exists s,
    parseParams node privateNode tfBuffer config obj tr
      = resolve_transform tfBuffer s /\
    this s = parsed_members node obj.
Proof.
  unfold parseParams.
  set (s0 := {| success := true; config_out := config; this := obj; trace := tr |}).
  destruct (parse_config_spec node privateNode s0) as (_ & _ & T1 & _).
  destruct (parse_members_spec node (parse_config node privateNode s0))
    as (_ & _ & T2 & _).
  eexists. split; [reflexivity |]. rewrite T2, T1. reflexivity.
Qed.

(** A [setupROS] that fails leaves things as the failed [parseParams] left
    them. *)
Lemma setupROS_failure (node privateNode : NodeHandle) (tfBuffer : TfBuffer)
    (config : RegistrationParams) (obj : ScanRegistration) (tr : list Event) :
  success (parseParams node privateNode tfBuffer config (reset_members obj) tr)
    = false ->
  setupROS node privateNode tfBuffer config obj tr =
  parseParams node privateNode tfBuffer config (reset_members obj) tr.
Proof.
  unfold setupROS. intros H. rewrite H. cbn [negb].
  destruct (parseParams _ _ _ _ _ _) as [ok c t l]. cbn in *. subst ok.
  reflexivity.
Qed.

(** A test that fails was put to a value that was supplied. *)
Lemma passes_false {A : Type} (test : A -> bool) (o : option A) :
  passes test o = false -> exists v, o = Some v /\ test v = false.
Proof.
  destruct o as [v |]; cbn; [| discriminate].
  intros H. exists v. split; [reflexivity | exact H].
Qed.

Lemma positive_false (f : Float) : positive f = false -> Float_le f (Num 0).
Proof.
  unfold positive, Float_le. rewrite negb_false_iff. intros H. exact H.
Qed.

Lemma at_least_false (bound i : Z) : at_least bound i = false -> i < bound.
Proof. unfold at_least. rewrite negb_false_iff. apply Z.ltb_lt. Qed.

Lemma at_least_thousandth_false (f : Float) :
  at_least_thousandth f = false -> Float_lt f (Num (1 # 1000)).
Proof.
  unfold at_least_thousandth, Float_lt. rewrite negb_false_iff. intros H. exact H.
Qed.

(** A supplied option that is out of range fails the checks. *)
Lemma rejected_fails (node privateNode : NodeHandle) (c : RegistrationParams) :
  some_supplied_rejected node privateNode (maxCornerSharp_in_force privateNode c) ->
  checks node privateNode c = false.
Proof.
  unfold some_supplied_rejected, maxCornerSharp_in_force. intros Hrej.
  apply not_true_is_false. unfold checks. rewrite !andb_true_iff.
  intros ((((((((H1 & H2) & H3) & H4) & H5) & H6) & H7) & H8) & H9).
  destruct Hrej as [(v & Hv & Hr) | [(v & Hv & Hr) | [(v & Hv & Hr) |
    [(v & Hv & Hr) | [(v & Hv & Hr) | [(v & Hv & Hr) | [(v & Hv & Hr) |
    [(v & Hv & Hr) | (v & Hv & Hr)]]]]]]]].
  - rewrite Hv in H1. cbn [passes] in H1. unfold positive, Float_le in *.
    rewrite Hr in H1. discriminate.
  - rewrite Hv in H2. apply at_least_iff in H2. lia.
  - rewrite Hv in H3. apply at_least_iff in H3. lia.
  - rewrite Hv in H4. apply at_least_iff in H4. lia.
  - rewrite Hv in H5. apply at_least_iff in H5. lia.
  - rewrite Hv in H6. cbn [passes] in H6. apply at_least_iff in H6.
    destruct (getParam_int privateNode "maxCornerSharp") as [u |];
      cbn [accepted supplied passes] in *; [| lia].
    rewrite H5 in H6. lia.
  - rewrite Hv in H7. apply at_least_iff in H7. lia.
  - rewrite Hv in H8. cbn [passes] in H8. unfold at_least_thousandth, Float_lt in *.
    rewrite Hr in H8. discriminate.
  - rewrite Hv in H9. cbn [passes] in H9. unfold at_least_thousandth, Float_lt in *.
    rewrite Hr in H9. discriminate.
Qed.

(** When the checks fail, some supplied option is out of range. *)
Lemma checks_false (node privateNode : NodeHandle) (c : RegistrationParams) :
  checks node privateNode c = false ->
  some_supplied_rejected node privateNode
    (maxCornerSharp (parsed_config node privateNode c)).
Proof.
  unfold checks, some_supplied_rejected. cbn [parsed_config maxCornerSharp].
  rewrite !andb_false_iff.
  intros [[[[[[[[H | H] | H] | H] | H] | H] | H] | H] | H];
    apply passes_false in H; destruct H as (v & Hv & Ht).
  - left. exists v. split; [exact Hv | apply positive_false; exact Ht].
  - right; left. exists v. split; [exact Hv | apply at_least_false; exact Ht].
  - do 2 right; left. exists v. split; [exact Hv | apply at_least_false; exact Ht].
  - do 3 right; left. exists v. split; [exact Hv | apply at_least_false; exact Ht].
  - do 4 right; left. exists v. split; [exact Hv | apply at_least_false; exact Ht].
  - do 5 right; left. exists v. split; [exact Hv | apply at_least_false; exact Ht].
  - do 6 right; left. exists v. split; [exact Hv | apply at_least_false; exact Ht].
  - do 7 right; left. exists v.
    split; [exact Hv | apply at_least_thousandth_false; exact Ht].
  - do 8 right. exists v.
    split; [exact Hv | apply at_least_thousandth_false; exact Ht].
Qed.

(** ** Gravity *)

(** The vector [gravity] has magnitude 9.81 at every roll and pitch. *)
Lemma gravity_magnitude (roll pitch : R) :
  (v_x (gravity roll pitch) * v_x (gravity roll pitch) +
   v_y (gravity roll pitch) * v_y (gravity roll pitch) +
   v_z (gravity roll pitch) * v_z (gravity roll pitch) = 9.81 * 9.81)%R.
Proof.
  unfold gravity. cbn [v_x v_y v_z].
  pose proof (sin2_cos2 roll) as Hr. pose proof (sin2_cos2 pitch) as Hp.
  unfold Rsqr in Hr, Hp.
  replace (- (sin pitch * 9.81) * - (sin pitch * 9.81) +
           sin roll * cos pitch * 9.81 * (sin roll * cos pitch * 9.81) +
           cos roll * cos pitch * 9.81 * (cos roll * cos pitch * 9.81))%R
    with (9.81 * 9.81 *
          (sin pitch * sin pitch +
           cos pitch * cos pitch * (sin roll * sin roll + cos roll * cos roll)))%R
    by ring.
  rewrite Hr, Rmult_1_r, Hp. ring.
Qed.

(** * The claims *)

(** C1. The acceleration [handleIMUMessage] hands to [updateIMUData], as
    [acc] and as the [acceleration] of the new state, is the linear
    acceleration of the sample minus gravity, narrowed to [float]: gravity
    is the constant 9.81 projected on the three axes by the sines and
    cosines of the roll and pitch read off the sample's own orientation
    quaternion (a vector of magnitude 9.81), and the sensor's y, z and x
    axes are stored as x, y and z. The sample is the one the handler works
    on after its first [if]. *)
Theorem handleIMUMessage_removes_gravity
    (obj : ScanRegistration) (imuIn : Imu) (b : Basic) :
  let m := imuInRotated obj imuIn in
  let rpy := getRPY (orientation m) in
  let g := gravity (fst (fst rpy)) (snd (fst rpy)) in
  let a := linear_acceleration m in
  let acc := {| vec_x := to_float (v_y a - v_y g);
                vec_y := to_float (v_z a - v_z g);
                vec_z := to_float (v_x a - v_x g) |} in
  fst (imu_update m) = acc /\
  acceleration (snd (imu_update m)) = acc /\
  handleIMUMessage obj imuIn b = updateIMUData acc (snd (imu_update m)) b /\
  (v_x g * v_x g + v_y g * v_y g + v_z g * v_z g = 9.81 * 9.81)%R.
Proof.
  intros m rpy g a acc.
  assert (Hacc : fst (imu_update m) = acc /\ acceleration (snd (imu_update m)) = acc).
  { subst acc g a rpy. unfold imu_update.
    destruct (getRPY (orientation m)) as [[roll pitch] yaw].
    cbn [fst snd acceleration]. unfold compensated_acc, gravity. cbn [v_x v_y v_z].
    replace (v_x (linear_acceleration m) - - (sin pitch * 9.81))%R
      with (v_x (linear_acceleration m) + sin pitch * 9.81)%R by ring.
    split; reflexivity. }
  destruct Hacc as [Hfst Hsnd].
  split; [exact Hfst |]. split; [exact Hsnd |]. split.
  - unfold handleIMUMessage. fold m. rewrite Hfst. reflexivity.
  - apply gravity_magnitude.
Qed.

(** C2. The claim fails on a [float] option that is not a number. With
    [scanPeriod] supplied as NaN the test [fParam <= 0] of line 50 is
    false, so the value is stored and [parseParams] and [setupROS] both
    return [true], although the option does not satisfy [scanPeriod > 0]
    (the error line of the same block says "expected > 0"). *)
Lemma nan_scanPeriod_accepted :
  getParam_float node_nan "scanPeriod" = Some NaN /\
  ~ constraints_met node_nan no_params sample_config /\
  success (parseParams node_nan no_params never_available sample_config
             fresh_object []) = true /\
  success (setupROS node_nan no_params never_available sample_config
             fresh_object []) = true /\
  scanPeriod (config_out (parseParams node_nan no_params never_available
                            sample_config fresh_object [])) = NaN.
Proof.
  split; [reflexivity |]. split.
  - intros (H & _). vm_compute in H. discriminate.
  - vm_compute. repeat split.
Qed.

(** The two thresholds let NaN through in the same way: [fParam < 0.001]
    is false. *)
Example nan_threshold_accepted :
  let privateNode :=
    node_of [("surfaceCurvatureThreshold", NaN); ("lessFlatFilterSize", NaN)]
            [] [] [] in
  success (parseParams no_params privateNode never_available sample_config
             fresh_object []) = true /\
  surfaceCurvatureThreshold
    (config_out (parseParams no_params privateNode never_available
                   sample_config fresh_object [])) = NaN /\
  lessFlatFilterSize
    (config_out (parseParams no_params privateNode never_available
                   sample_config fresh_object [])) = NaN.
Proof. vm_compute. repeat split. Qed.

(** C2, on an input: a [featureRegions] of 0 among otherwise good options is
    turned down by both functions. *)
Example parseParams_rejects_zero_regions :
  let privateNode :=
    node_of [("lessFlatFilterSize", Num (1 # 5))]
            [("imuHistorySize", 100); ("featureRegions", 0)] [] [] in
  success (parseParams no_params privateNode never_available sample_config
             fresh_object []) = false /\
  success (setupROS no_params privateNode never_available sample_config
             fresh_object []) = false.
Proof. vm_compute. split; reflexivity. Qed.

(** C3, as stated, fails: with a good [scanPeriod] and a bad
    [imuHistorySize], [setupROS] returns [false] and yet [config_out]
    carries the new [scanPeriod]. *)
Lemma config_error_not_atomic :
  success (setupROS node_scanPeriod node_bad_history never_available
             sample_config fresh_object []) = false /\
  scanPeriod sample_config = Num (1 # 10) /\
  scanPeriod (config_out (setupROS node_scanPeriod node_bad_history
                            never_available sample_config fresh_object []))
    = Num (1 # 5).
Proof. vm_compute. repeat split. Qed.

(** C3, amended. When some supplied option is out of range, that is,
    compares below its bound ([scanPeriod <= 0], a count below 1,
    [maxCornerLessSharp] below the [maxCornerSharp] in force, a threshold
    below 0.001), [setupROS] returns [false] and sets up no subscription
    and no advertisement: the trace gains no such event and the handles of
    the object are the ones it had. [config_out] is not put back: it holds
    every supplied option that passed its own check. An option that is not
    a number compares below nothing and is not spoken of here. *)
Theorem config_error_sets_nothing_up
    (node privateNode : NodeHandle) (tfBuffer : TfBuffer)
    (config : RegistrationParams) (obj : ScanRegistration) (tr : list Event) :
  some_supplied_rejected node privateNode
    (maxCornerSharp_in_force privateNode config) ->
  success (setupROS node privateNode tfBuffer config obj tr) = false /\
  setups (trace (setupROS node privateNode tfBuffer config obj tr)) = setups tr /\
  handles (this (setupROS node privateNode tfBuffer config obj tr)) = handles obj /\
  config_out (setupROS node privateNode tfBuffer config obj tr)
    = parsed_config node privateNode config.
Proof.
  intros Hbad.
  assert (Hfalse :
    success (parseParams node privateNode tfBuffer config (reset_members obj) tr)
      = false).
  { rewrite (proj1 (parseParams_spec node privateNode tfBuffer config
                      (reset_members obj) tr)).
    apply rejected_fails. exact Hbad. }
  rewrite (setupROS_failure _ _ _ _ _ _ Hfalse).
  destruct (parseParams_spec node privateNode tfBuffer config (reset_members obj) tr)
    as (_ & Hc & Hk & added & Ht & _ & _ & Hp & _).
  split; [exact Hfalse |].
  split; [rewrite Ht, setups_app, Hp; lia |].
  split; [| exact Hc].
  unfold kept in Hk. unfold handles, sweep_publishers.
  destruct Hk as (_ & _ & _ & -> & -> & -> & -> & -> & -> & ->).
  reflexivity.
Qed.

(** C3 amended, on the input of the counterexample. *)
Lemma config_error_sets_nothing_up_witness :
  success (setupROS node_scanPeriod node_bad_history never_available
             sample_config fresh_object []) = false /\
  setups (trace (setupROS node_scanPeriod node_bad_history never_available
                   sample_config fresh_object [])) = 0%nat /\
  handles (this (setupROS node_scanPeriod node_bad_history never_available
                   sample_config fresh_object [])) = handles fresh_object.
Proof.
  destruct (config_error_sets_nothing_up node_scanPeriod node_bad_history
              never_available sample_config fresh_object [])
    as (Hf & Hs & Hh & _).
  - right. left. exists 0. split; [reflexivity | lia].
  - split; [exact Hf |]. split; [exact Hs | exact Hh].
Defined.

(** With every option in range the seven topics are set up, in this order. *)
Example setupROS_sets_up :
  trace (setupROS no_params no_params never_available sample_config
           fresh_object []) = setup_events "/imu/data" /\
  handles (this (setupROS no_params no_params never_available sample_config
                   fresh_object []))
  = (Some (subscribe "/imu/data" 50),
     [ Some (advertise "velodyne_cloud_2" 2);
       Some (advertise "laser_cloud_sharp" 2);
       Some (advertise "laser_cloud_less_sharp" 2);
       Some (advertise "laser_cloud_flat" 2);
       Some (advertise "laser_cloud_less_flat" 2);
       Some (advertise "imu_trans" 5) ]).
Proof. vm_compute. split; reflexivity. Qed.

(** C4. The transform look-up of [parseParams] runs to its end, whatever
    the buffer answers and for how long it fails: the function is total,
    and all it adds to the trace is at most eleven look-ups, at most one
    sleep per look-up, each sleep of the same one second, and no
    subscription or advertisement. *)
Theorem parseParams_lookups_bounded
    (node privateNode : NodeHandle) (tfBuffer : TfBuffer)
    (config : RegistrationParams) (obj : ScanRegistration) (tr : list Event) :
  exists added,
    trace (parseParams node privateNode tfBuffer config obj tr) = tr ++ added /\
    (lookups added <= 11)%nat /\
    (sleeps added <= lookups added)%nat /\
    backoff_fixed added.
Proof.
  destruct (parseParams_spec node privateNode tfBuffer config obj tr)
    as (_ & _ & _ & added & Ht & Hl & Hs & _ & Hb).
  exists added. repeat split; assumption.
Qed.

(** C4, the bound is met: with the rotation asked for and a transform that
    never comes, the loop makes eleven look-ups and sleeps eleven times. *)
Example parseParams_eleven_lookups :
  let node := node_of [] [] [("transformImuData", true)] [] in
  let tr := trace (parseParams node no_params never_available sample_config
                     fresh_object []) in
  lookups tr = 11%nat /\ sleeps tr = 11%nat.
Proof. vm_compute. split; reflexivity. Qed.

(** C5. When the rotation of inertial samples has been asked for and all
    eleven look-ups fail, [parseParams] leaves [_transformIMU] false and
    logs the failure as an error; and whatever the buffer answers, the
    value [parseParams] returns, and with it the value [setupROS] returns,
    is the one the options alone decide: with every supplied option in
    range both return [true]. *)
Theorem unresolved_transform_not_fatal
    (node privateNode : NodeHandle) (tfBuffer : TfBuffer)
    (config : RegistrationParams) (obj : ScanRegistration) (tr : list Event) :
  _transformIMU (parsed_members node obj) = true ->
  (forall k, 0 < k <= 11 ->
     tfBuffer k (_lidarFrame (parsed_members node obj))
       (_imuFrame (parsed_members node obj)) = None) ->
  _transformIMU (this (parseParams node privateNode tfBuffer config obj tr))
    = false /\
  In (RosLog ERROR no_transform_msg)
    (trace (parseParams node privateNode tfBuffer config obj tr)) /\
  (forall tfBuffer',
     success (parseParams node privateNode tfBuffer config obj tr) =
     success (parseParams node privateNode tfBuffer' config obj tr) /\
     success (setupROS node privateNode tfBuffer config obj tr) =
     success (setupROS node privateNode tfBuffer' config obj tr)) /\
  (constraints_met node privateNode config ->
   success (parseParams node privateNode tfBuffer config obj tr) = true /\
   success (setupROS node privateNode tfBuffer config obj tr) = true).
Proof.
  intros Hflag Hnone.
  destruct (parseParams_before_lookup node privateNode tfBuffer config obj tr)
    as (s & Heq & Hs).
  assert (Hloop :
    _transformIMU (this (resolve_transform tfBuffer s)) = false /\
    In (RosLog ERROR no_transform_msg) (trace (resolve_transform tfBuffer s))).
  { unfold resolve_transform, lookup_while. rewrite Hs, Hflag.
    cbn [fst transform_found].
    apply lookup_retry_exhausted. cbn [fst snd counter]. rewrite Hs.
    exact Hnone. }
  destruct Hloop as [Hoff Hlog].
  split; [rewrite Heq; exact Hoff |]. split; [rewrite Heq; exact Hlog |].
  clear Heq Hoff Hlog Hs s.
  split.
  - intros tfBuffer'. split.
    + rewrite (proj1 (parseParams_spec node privateNode tfBuffer config obj tr)).
      rewrite (proj1 (parseParams_spec node privateNode tfBuffer' config obj tr)).
      reflexivity.
    + rewrite (proj1 (setupROS_spec node privateNode tfBuffer config obj tr)).
      rewrite (proj1 (setupROS_spec node privateNode tfBuffer' config obj tr)).
      rewrite (proj1 (parseParams_spec node privateNode tfBuffer config _ tr)).
      rewrite (proj1 (parseParams_spec node privateNode tfBuffer' config _ tr)).
      reflexivity.
  - intros Hmet.
    exact (returns_true_on_constraints node privateNode tfBuffer config obj tr
             Hmet).
Qed.

(** C5, on an input: the rotation asked for, the transform never there. *)
Lemma unresolved_transform_not_fatal_witness :
  _transformIMU (this (parseParams node_transform no_params never_available
                         sample_config fresh_object [])) = false /\
  In (RosLog ERROR no_transform_msg)
    (trace (parseParams node_transform no_params never_available
              sample_config fresh_object [])) /\
  success (parseParams node_transform no_params never_available
             sample_config fresh_object []) = true /\
  success (setupROS node_transform no_params never_available
             sample_config fresh_object []) = true.
Proof.
  destruct (unresolved_transform_not_fatal node_transform no_params
              never_available sample_config fresh_object [])
    as (Hoff & Hlog & _ & Hok).
  - reflexivity.
  - intros k _. reflexivity.
  - split; [exact Hoff |]. split; [exact Hlog |].
    apply Hok. vm_compute. repeat split.
Defined.

(** The loop is not bound to fail: a transform that is there at the third
    look-up is stored, and the rotation stays on. *)
Example parseParams_transform_found :
  let r := parseParams node_transform no_params (available_from 3)
             sample_config fresh_object [] in
  _transformIMU (this r) = true /\ lookups (trace r) = 3%nat /\
  sleeps (trace r) = 2%nat.
Proof. vm_compute. repeat split. Qed.

(** The loop gives up on the count alone: a transform that is there only at
    the eleventh look-up is stored, and the rotation is switched off all
    the same. *)
Example parseParams_found_at_eleventh :
  let r := parseParams node_transform no_params (available_from 11)
             sample_config fresh_object [] in
  _transformIMU (this r) = false /\ lookups (trace r) = 11%nat /\
  sleeps (trace r) = 10%nat /\
  In (RosLog INFO "Found IMU Lidar transform.") (trace r).
Proof. vm_compute. repeat split. right. tauto. Qed.

(** C6. [handleIMUMessage] works on the sample rotated by [transformIMU]
    with the stored transform [_T_lidar_imu] when [_transformIMU] is true,
    and on the sample as it came when [_transformIMU] is false: what it
    passes to [updateIMUData] is computed from that sample alone, so that
    with the flag off neither the stored transform nor any other member
    has a part in it. *)
Theorem handleIMUMessage_rotates_iff_enabled
    (obj : ScanRegistration) (imuIn : Imu) (b : Basic) :
  imuInRotated obj imuIn =
    (if _transformIMU obj
     then transformIMU imuIn Imu_empty (_T_lidar_imu obj)
     else imuIn) /\
  handleIMUMessage obj imuIn b =
    updateIMUData (fst (imu_update (imuInRotated obj imuIn)))
      (snd (imu_update (imuInRotated obj imuIn))) b /\
  (_transformIMU obj = true ->
   handleIMUMessage obj imuIn b =
   handleIMUMessage (set_transformIMU false obj)
     (transformIMU imuIn Imu_empty (_T_lidar_imu obj)) b) /\
  (_transformIMU obj = false ->
   handleIMUMessage obj imuIn b =
     updateIMUData (fst (imu_update imuIn)) (snd (imu_update imuIn)) b /\
   forall obj', _transformIMU obj' = false ->
     handleIMUMessage obj' imuIn b = handleIMUMessage obj imuIn b).
Proof.
  split; [reflexivity |]. split; [reflexivity |]. split.
  - intros H. unfold handleIMUMessage, imuInRotated. rewrite H. reflexivity.
  - intros H. unfold handleIMUMessage, imuInRotated. rewrite H.
    split; [reflexivity |]. intros obj' ->. reflexivity.
Qed.

(** C7. One call of [publishResult] adds exactly six messages to the ones
    published so far: the full cloud, the sharp and less sharp corner
    points, the flat and less flat surface points and the inertial
    transform of the sweep, each on its own publisher, in this order; and
    every one of the six carries the start time of the sweep as its stamp
    and [_lidarFrame] as its frame id. *)
Theorem publishResult_six_outputs
    (obj : ScanRegistration) (b : Basic) (out : list CloudMsg) :
  exists msgs,
    publishResult obj b out = out ++ msgs /\
    List.length msgs = 6%nat /\
    map msg_cloud msgs = sweep_clouds b /\
    map msg_publisher msgs = sweep_publishers obj /\
    Forall (fun m => msg_stamp m = toROSTime (sweepStart b) /\
                     msg_frame_id m = _lidarFrame obj) msgs.
Proof.
  unfold publishResult, publishCloudMsg.
  repeat rewrite <- app_assoc. cbn [app].
  eexists. split; [reflexivity |].
  split; [reflexivity |]. split; [reflexivity |]. split; [reflexivity |].
  repeat (apply Forall_cons; [split; reflexivity |]). apply Forall_nil.
Qed.

(** C8. The claim fails on a valid [maxCornerSharp] whose tenfold does not
    fit an [int]: for 214748365 the product of line 96 overflows, what is
    stored in [maxCornerLessSharp] is not ten times the value but a
    negative number below [maxCornerSharp], which the check of line 103
    would turn down in a supplied [maxCornerLessSharp], and [parseParams]
    returns [true]. *)
Lemma implied_default_overflows :
  getParam_int node_sharp_large "maxCornerSharp" = Some 214748365 /\
  success (parseParams no_params node_sharp_large never_available sample_config
             fresh_object []) = true /\
  maxCornerSharp
    (config_out (parseParams no_params node_sharp_large never_available
                   sample_config fresh_object [])) = 214748365 /\
  maxCornerLessSharp
    (config_out (parseParams no_params node_sharp_large never_available
                   sample_config fresh_object [])) = -2147483646 /\
  maxCornerLessSharp
    (config_out (parseParams no_params node_sharp_large never_available
                   sample_config fresh_object [])) <> 10 * 214748365.
Proof.
  split; [reflexivity |]. split; [reflexivity |]. split; [reflexivity |].
  split; [reflexivity |]. vm_compute. discriminate.
Qed.

(** C9, as stated, fails for [maxCornerLessSharp]: the option is absent,
    [maxCornerSharp] alone is supplied, and the field goes from 20 to 50. *)
Lemma absent_lessSharp_not_preserved :
  getParam_int node_sharp_only "maxCornerLessSharp" = None /\
  maxCornerLessSharp sample_config = 20 /\
  maxCornerLessSharp
    (config_out (parseParams no_params node_sharp_only never_available
                   sample_config fresh_object [])) = 50.
Proof. vm_compute. repeat split. Qed.

(** C9, amended. An option the parameter server does not supply leaves its
    own field of [config_out] as it was, for every field but
    [maxCornerLessSharp]; that one is left as it was when its own option is
    absent and [maxCornerSharp] is absent or supplied below 1, hence
    rejected. And an absent option is never what makes [parseParams] return
    [false]: whenever it does, some option that was supplied is out of
    range. *)
Theorem absent_options_keep_fields
    (node privateNode : NodeHandle) (tfBuffer : TfBuffer)
    (config : RegistrationParams) (obj : ScanRegistration) (tr : list Event) :
  (getParam_float node "scanPeriod" = None ->
   scanPeriod (config_out (parseParams node privateNode tfBuffer config obj tr))
   = scanPeriod config) /\
  (getParam_int privateNode "imuHistorySize" = None ->
   imuHistorySize (config_out (parseParams node privateNode tfBuffer config obj tr))
   = imuHistorySize config) /\
  (getParam_int privateNode "featureRegions" = None ->
   nFeatureRegions (config_out (parseParams node privateNode tfBuffer config obj tr))
   = nFeatureRegions config) /\
  (getParam_int privateNode "curvatureRegion" = None ->
   curvatureRegion (config_out (parseParams node privateNode tfBuffer config obj tr))
   = curvatureRegion config) /\
  (getParam_int privateNode "maxCornerSharp" = None ->
   maxCornerSharp (config_out (parseParams node privateNode tfBuffer config obj tr))
   = maxCornerSharp config) /\
  (getParam_int privateNode "maxCornerLessSharp" = None ->
   holds (fun v => v < 1) (getParam_int privateNode "maxCornerSharp") ->
   maxCornerLessSharp
     (config_out (parseParams node privateNode tfBuffer config obj tr))
   = maxCornerLessSharp config) /\
  (getParam_int privateNode "maxSurfaceFlat" = None ->
   maxSurfaceFlat (config_out (parseParams node privateNode tfBuffer config obj tr))
   = maxSurfaceFlat config) /\
  (getParam_float privateNode "surfaceCurvatureThreshold" = None ->
   surfaceCurvatureThreshold
     (config_out (parseParams node privateNode tfBuffer config obj tr))
   = surfaceCurvatureThreshold config) /\
  (getParam_float privateNode "lessFlatFilterSize" = None ->
   lessFlatFilterSize
     (config_out (parseParams node privateNode tfBuffer config obj tr))
   = lessFlatFilterSize config) /\
  (success (parseParams node privateNode tfBuffer config obj tr) = false ->
   some_supplied_rejected node privateNode
     (maxCornerSharp
        (config_out (parseParams node privateNode tfBuffer config obj tr)))).
Proof.
  destruct (parseParams_spec node privateNode tfBuffer config obj tr)
    as (Hs & Hc & _).
  rewrite Hc, Hs. unfold parsed_config.
  cbn [scanPeriod imuHistorySize nFeatureRegions curvatureRegion maxCornerSharp
       maxCornerLessSharp maxSurfaceFlat surfaceCurvatureThreshold
       lessFlatFilterSize].
  repeat split; try (intros ->; reflexivity).
  - intros -> Hsharp. cbn [accepted]. unfold implied_lessSharp.
    destruct (getParam_int privateNode "maxCornerSharp") as [v |];
      [| reflexivity].
    cbn [holds] in Hsharp.
    assert (Hno : at_least 1 v = false)
      by (unfold at_least; apply negb_false_iff, Z.ltb_lt; exact Hsharp).
    rewrite Hno. reflexivity.
  - apply checks_false.
Qed.

(** A [maxCornerSharp] that is rejected leaves [maxCornerLessSharp] alone,
    as an absent one does. *)
Example rejected_sharp_keeps_lessSharp :
  maxCornerLessSharp
    (config_out (parseParams no_params (node_of [] [("maxCornerSharp", 0)] [] [])
                   never_available sample_config fresh_object [])) = 20.
Proof. reflexivity. Qed.

(** C9 amended, on an input: with no option supplied at all [parseParams]
    returns [true] and [config_out] is what it was. *)
Lemma absent_options_keep_fields_witness :
  success (parseParams no_params no_params never_available sample_config
             fresh_object []) = true /\
  config_out (parseParams no_params no_params never_available sample_config
                fresh_object []) = sample_config.
Proof.
  pose proof (absent_options_keep_fields no_params no_params never_available
                sample_config fresh_object [])
    as (H1 & H2 & H3 & H4 & H5 & H6 & H7 & H8 & H9 & H10).
  split.
  - destruct (success (parseParams no_params no_params never_available
                         sample_config fresh_object [])) eqn:E;
      [reflexivity |].
    exfalso.
    destruct (H10 eq_refl)
      as [(v & Hv & _) | [(v & Hv & _) | [(v & Hv & _) | [(v & Hv & _) |
         [(v & Hv & _) | [(v & Hv & _) | [(v & Hv & _) | [(v & Hv & _) |
          (v & Hv & _)]]]]]]]]; discriminate Hv.
  - specialize (H1 eq_refl). specialize (H2 eq_refl). specialize (H3 eq_refl).
    specialize (H4 eq_refl). specialize (H5 eq_refl).
    specialize (H6 eq_refl I). specialize (H7 eq_refl).
    specialize (H8 eq_refl). specialize (H9 eq_refl).
    destruct (config_out (parseParams no_params no_params never_available
                            sample_config fresh_object [])).
    cbn in *. subst. reflexivity.
Defined.

(** C10. [setupROS] first puts [_transformIMU], [_imuFrame], [_lidarFrame]
    and [_imuInputTopic] back to [false], "/imu", "/camera" and
    "/imu/data", whatever they were; so after the call each of them that no
    option was supplied for holds that default, whether the call returned
    [true] or [false]. *)
Theorem setupROS_member_defaults
    (node privateNode : NodeHandle) (tfBuffer : TfBuffer)
    (config : RegistrationParams) (obj : ScanRegistration) (tr : list Event) :
  (_transformIMU (reset_members obj) = false /\
   _imuFrame (reset_members obj) = "/imu" /\
   _lidarFrame (reset_members obj) = "/camera" /\
   _imuInputTopic (reset_members obj) = "/imu/data") /\
  (getParam_bool node "transformImuData" = None ->
   _transformIMU (this (setupROS node privateNode tfBuffer config obj tr))
   = false) /\
  (getParam_string node "imuFrame" = None ->
   _imuFrame (this (setupROS node privateNode tfBuffer config obj tr)) = "/imu") /\
  (getParam_string node "lidarFrame" = None ->
   _lidarFrame (this (setupROS node privateNode tfBuffer config obj tr))
   = "/camera") /\
  (getParam_string node "imuInputTopic" = None ->
   _imuInputTopic (this (setupROS node privateNode tfBuffer config obj tr))
   = "/imu/data").
Proof.
  split; [repeat split |].
  assert (Hthis :
    _transformIMU (this (setupROS node privateNode tfBuffer config obj tr)) =
      _transformIMU
        (this (parseParams node privateNode tfBuffer config (reset_members obj) tr))
    /\ _imuFrame (this (setupROS node privateNode tfBuffer config obj tr)) =
      _imuFrame
        (this (parseParams node privateNode tfBuffer config (reset_members obj) tr))
    /\ _lidarFrame (this (setupROS node privateNode tfBuffer config obj tr)) =
      _lidarFrame
        (this (parseParams node privateNode tfBuffer config (reset_members obj) tr))
    /\ _imuInputTopic (this (setupROS node privateNode tfBuffer config obj tr)) =
      _imuInputTopic
        (this (parseParams node privateNode tfBuffer config (reset_members obj) tr))).
  { unfold setupROS. destruct (success (parseParams _ _ _ _ _ _));
      cbn [negb this]; repeat split. }
  destruct Hthis as (Hflag & Hi & Hl & Ht).
  destruct (parseParams_spec node privateNode tfBuffer config (reset_members obj) tr)
    as (_ & _ & (Hi' & Hl' & Ht' & _) & _).
  rewrite Hflag, Hi, Hl, Ht, Hi', Hl', Ht'.
  clear Hflag Hi Hl Ht Hi' Hl' Ht'.
  unfold parsed_members. cbn [_imuFrame _lidarFrame _imuInputTopic].
  split; [| repeat split; intros ->; reflexivity].
  intros Hnone.
  destruct (parseParams_before_lookup node privateNode tfBuffer config
              (reset_members obj) tr) as (s & -> & Hs).
  rewrite resolve_transform_off; rewrite Hs; unfold parsed_members;
    cbn [_transformIMU]; rewrite Hnone; reflexivity.
Qed.

(** C10, on an input: an object that held other values before the call, a
    parameter server that supplies nothing. *)
Lemma setupROS_member_defaults_witness :
  _transformIMU (this (setupROS no_params no_params never_available
                         sample_config stale_object [])) = false /\
  _imuFrame (this (setupROS no_params no_params never_available
                     sample_config stale_object [])) = "/imu" /\
  _lidarFrame (this (setupROS no_params no_params never_available
                       sample_config stale_object [])) = "/camera" /\
  _imuInputTopic (this (setupROS no_params no_params never_available
                          sample_config stale_object [])) = "/imu/data".
Proof.
  pose proof (setupROS_member_defaults no_params no_params never_available
                sample_config stale_object [])
    as (_ & Hflag & Hi & Hl & Ht).
  split; [apply Hflag; reflexivity |].
  split; [apply Hi; reflexivity |].
  split; [apply Hl; reflexivity | apply Ht; reflexivity].
Defined.

(** * Further properties *)

(** ** The look-up loop, exactly *)

Lemma first_found_spec (tfBuffer : TfBuffer) (target source : string)
    (n : nat) (k : Z) :
  match first_found tfBuffer target source k n with
  | Some (j, T) =>
      k <= j < k + Z.of_nat n /\ tfBuffer j target source = Some T /\
      forall i, k <= i < j -> tfBuffer i target source = None
  | None => forall i, k <= i < k + Z.of_nat n -> tfBuffer i target source = None
  end.
Proof.
  revert k. induction n as [| n IH]; intros k.
  - cbn. intros i Hi. lia.
  - cbn [first_found].
    destruct (tfBuffer k target source) as [T |] eqn:Hk.
    + split; [lia |]. split; [exact Hk |]. intros i Hi. lia.
    + specialize (IH (k + 1)).
      destruct (first_found tfBuffer target source (k + 1) n) as [[j T] |].
      * destruct IH as (Hj & HT & Hbefore).
        split; [lia |]. split; [exact HT |].
        intros i Hi. destruct (Z.eq_dec i k) as [-> | Hne];
          [exact Hk | apply Hbefore; lia].
      * intros i Hi. destruct (Z.eq_dec i k) as [-> | Hne];
          [exact Hk | apply IH; lia].
Qed.

(** The first find is the find: a look-up that succeeds after failures
    only is the one [first_found] returns. *)
Lemma first_found_at (tfBuffer : TfBuffer) (target source : string)
    (n : nat) (k j : Z) (T : TransformStamped) :
  k <= j < k + Z.of_nat n ->
  (forall i, k <= i < j -> tfBuffer i target source = None) ->
  tfBuffer j target source = Some T ->
  first_found tfBuffer target source k n = Some (j, T).
Proof.
  intros Hj Hbefore HT.
  pose proof (first_found_spec tfBuffer target source n k) as H.
  destruct (first_found tfBuffer target source k n) as [[j' T'] |].
  - destruct H as (Hj' & HT' & Hbefore').
    assert (j' = j).
    { destruct (Z.lt_trichotomy j' j) as [Hlt | [Heq | Hgt]].
      - rewrite Hbefore in HT' by lia. discriminate.
      - exact Heq.
      - rewrite Hbefore' in HT by lia. discriminate. }
    subst j'. congruence.
  - rewrite H in HT by lia. discriminate.
Qed.

(** One pass, exactly. *)
Lemma lookup_iteration_exact (tfBuffer : TfBuffer) (v : LoopVars * Frame) :
  lookups (trace (snd (lookup_iteration tfBuffer v))) =
    S (lookups (trace (snd v))) /\
  _transformIMU (this (snd (lookup_iteration tfBuffer v))) =
    (if 10 <? counter (fst v) + 1 then false else _transformIMU (this (snd v))) /\
  match tfBuffer (counter (fst v) + 1)
          (_lidarFrame (this (snd v))) (_imuFrame (this (snd v))) with
  | Some T =>
      _T_lidar_imu (this (snd (lookup_iteration tfBuffer v))) = T /\
      sleeps (trace (snd (lookup_iteration tfBuffer v))) = sleeps (trace (snd v))
  | None =>
      _T_lidar_imu (this (snd (lookup_iteration tfBuffer v))) =
        _T_lidar_imu (this (snd v)) /\
      sleeps (trace (snd (lookup_iteration tfBuffer v))) =
        S (sleeps (trace (snd v)))
  end.
Proof.
  unfold lookup_iteration. cbn [emit this].
  destruct (10 <? counter (fst v) + 1);
    destruct (tfBuffer _ _ _);
    cbn [fst snd trace this emit log with_this set_transformIMU set_T_lidar_imu
         _transformIMU _T_lidar_imu];
    rewrite ?lookups_app, ?sleeps_app; cbn; repeat split; lia.
Qed.

(** The loop, entered with at most ten look-ups made, exits as
    [loop_outcome] says. *)
Lemma lookup_retry_outcome (tfBuffer : TfBuffer) (v : LoopVars * Frame) :
  counter (fst v) <= 10 -> loop_outcome tfBuffer v (lookup_retry tfBuffer v).
Proof.
  apply (lookup_retry_rel tfBuffer (fun v r =>
    counter (fst v) <= 10 -> loop_outcome tfBuffer v r)); clear v.
  - intros v Hfound Hc. unfold loop_outcome. cbv zeta.
    rewrite lookup_iteration_found in Hfound.
    destruct (lookup_iteration_exact tfBuffer v) as (Hl & Hf & HT).
    pose proof (lookup_iteration_counter tfBuffer v) as Hn.
    replace (Z.to_nat (11 - counter (fst v)))
      with (S (Z.to_nat (10 - counter (fst v)))) by lia.
    cbn [first_found].
    destruct (tfBuffer (counter (fst v) + 1) _ _) as [T |].
    + destruct HT as [HT Hs]. rewrite Hf.
      split; [exact Hn |]. split; [exact HT |].
      split; [| lia].
      destruct (10 <? counter (fst v) + 1) eqn:E1;
        destruct (counter (fst v) + 1 <=? 10) eqn:E2; try reflexivity;
        [apply Z.ltb_lt in E1; apply Z.leb_le in E2
        | apply Z.ltb_ge in E1; apply Z.leb_gt in E2]; lia.
    + destruct HT as [HT Hs]. rewrite orb_false_r in Hfound.
      rewrite Hfound in Hf. apply Z.ltb_lt in Hfound.
      replace (Z.to_nat (10 - counter (fst v))) with 0%nat by lia.
      cbn [first_found].
      split; [lia |]. split; [exact HT |]. split; [exact Hf |]. lia.
  - intros v r Hguard IH Hc. unfold loop_outcome in *. cbv zeta in *.
    rewrite lookup_iteration_found in Hguard.
    apply orb_false_elim in Hguard. destruct Hguard as [Hten Hnone].
    destruct (lookup_iteration_exact tfBuffer v) as (Hl & Hf & HT).
    destruct (lookup_iteration_keeps tfBuffer v) as (_ & _ & Hi & Hlf & _).
    rewrite lookup_iteration_counter, Hi, Hlf in IH.
    rewrite Hten in Hf. apply Z.ltb_ge in Hten.
    specialize (IH Hten).
    replace (Z.to_nat (11 - counter (fst v)))
      with (S (Z.to_nat (11 - (counter (fst v) + 1)))) by lia.
    cbn [first_found].
    destruct (tfBuffer (counter (fst v) + 1) _ _) as [T |]; [discriminate |].
    destruct HT as [HT Hs]. rewrite Hl, Hs, Hf, HT in IH.
    destruct (first_found tfBuffer _ _ (counter (fst v) + 1 + 1) _) as [[k T] |].
    + destruct IH as (H1 & H2 & H3 & H4 & H5).
      split; [exact H1 |]. split; [exact H2 |]. split; [exact H3 |]. lia.
    + destruct IH as (H1 & H2 & H3 & H4 & H5).
      split; [exact H1 |]. split; [exact H2 |]. split; [exact H3 |]. lia.
Qed.

(** [parseParams] up to its last step, with all that the options have done
    by then. *)
Lemma parseParams_options_done (node privateNode : NodeHandle)
    (tfBuffer : TfBuffer) (config : RegistrationParams)
    (obj : ScanRegistration) (tr : list Event) :
  exists s,
    parseParams node privateNode tfBuffer config obj tr
      = resolve_transform tfBuffer s /\
    this s = parsed_members node obj /\
    success s = checks node privateNode config /\
    config_out s = parsed_config node privateNode config /\
    exists logs, trace s = tr ++ logs /\ only_logs logs.
Proof.
  unfold parseParams.
  set (s0 := {| success := true; config_out := config; this := obj; trace := tr |}).
  destruct (parse_config_spec node privateNode s0) as (S1 & C1 & T1 & l1 & E1 & L1).
  destruct (parse_members_spec node (parse_config node privateNode s0))
    as (S2 & C2 & T2 & l2 & E2 & L2).
  eexists. split; [reflexivity |].
  split; [rewrite T2, T1; reflexivity |].
  split; [rewrite S2, S1; reflexivity |].
  split; [rewrite C2, C1; reflexivity |].
  exists (l1 ++ l2). split.
  - rewrite E2, E1. cbn [trace s0]. rewrite app_assoc. reflexivity.
  - apply only_logs_app; assumption.
Qed.

(** With the rotation asked for, [parseParams] leaves the object and the
    trace as the closed form of the loop says, counted from the first
    look-up. *)
Lemma parseParams_loop_outcome (node privateNode : NodeHandle)
    (tfBuffer : TfBuffer) (config : RegistrationParams)
    (obj : ScanRegistration) (tr : list Event) :
  _transformIMU (parsed_members node obj) = true ->
  match first_found tfBuffer (_lidarFrame (parsed_members node obj))
          (_imuFrame (parsed_members node obj)) 1 11 with
  | Some (k, T) =>
      _T_lidar_imu (this (parseParams node privateNode tfBuffer config obj tr)) = T /\
      _transformIMU (this (parseParams node privateNode tfBuffer config obj tr))
        = (k <=? 10) /\
      Z.of_nat (lookups (trace (parseParams node privateNode tfBuffer config obj tr)))
        = Z.of_nat (lookups tr) + k /\
      Z.of_nat (sleeps (trace (parseParams node privateNode tfBuffer config obj tr)))
        = Z.of_nat (sleeps tr) + (k - 1)
  | None =>
      _T_lidar_imu (this (parseParams node privateNode tfBuffer config obj tr))
        = _T_lidar_imu obj /\
      _transformIMU (this (parseParams node privateNode tfBuffer config obj tr))
        = false /\
      Z.of_nat (lookups (trace (parseParams node privateNode tfBuffer config obj tr)))
        = Z.of_nat (lookups tr) + 11 /\
      Z.of_nat (sleeps (trace (parseParams node privateNode tfBuffer config obj tr)))
        = Z.of_nat (sleeps tr) + 11
  end.
Proof.
  intros Hon.
  destruct (parseParams_options_done node privateNode tfBuffer config obj tr)
    as (s & -> & Hs & _ & _ & logs & Ht & Hlogs).
  destruct (only_logs_quiet logs Hlogs) as (Hl0 & Hs0 & _ & _).
  unfold resolve_transform, lookup_while. rewrite Hs, Hon. cbn [fst transform_found].
  pose proof (lookup_retry_outcome tfBuffer
                ({| transform_found := false; counter := 0 |}, s)) as H.
  unfold loop_outcome in H. cbn [fst snd counter] in H. cbv zeta in H.
  rewrite Hs, Hon, Ht, lookups_app, sleeps_app, Hl0, Hs0 in H.
  specialize (H ltac:(lia)).
  change (0 + 1) with 1 in H. change (Z.to_nat (11 - 0)) with 11%nat in H.
  assert (HT0 : _T_lidar_imu (parsed_members node obj) = _T_lidar_imu obj)
    by reflexivity.
  destruct (first_found tfBuffer _ _ 1 11) as [[k T] |].
  - destruct H as (_ & H2 & H3 & H4 & H5).
    split; [exact H2 |]. split; [| lia].
    rewrite H3. destruct (k <=? 10); reflexivity.
  - destruct H as (_ & H2 & H3 & H4 & H5).
    split; [rewrite H2; exact HT0 |]. split; [exact H3 |]. lia.
Qed.

(** X1. With the rotation asked for, when the look-ups fail until the
    [k]-th, [k] at most ten, and that one finds a transform, [parseParams]
    stores that transform, leaves the rotation on, and has made exactly [k]
    look-ups and slept [k - 1] times. *)
Theorem transform_found_within_ten
    (node privateNode : NodeHandle) (tfBuffer : TfBuffer)
    (config : RegistrationParams) (obj : ScanRegistration) (tr : list Event)
    (k : Z) (T : TransformStamped) :
  _transformIMU (parsed_members node obj) = true ->
  1 <= k <= 10 ->
  (forall j, 1 <= j < k ->
     tfBuffer j (_lidarFrame (parsed_members node obj))
       (_imuFrame (parsed_members node obj)) = None) ->
  tfBuffer k (_lidarFrame (parsed_members node obj))
    (_imuFrame (parsed_members node obj)) = Some T ->
  _T_lidar_imu (this (parseParams node privateNode tfBuffer config obj tr)) = T /\
  _transformIMU (this (parseParams node privateNode tfBuffer config obj tr)) = true /\
  Z.of_nat (lookups (trace (parseParams node privateNode tfBuffer config obj tr)))
    = Z.of_nat (lookups tr) + k /\
  Z.of_nat (sleeps (trace (parseParams node privateNode tfBuffer config obj tr)))
    = Z.of_nat (sleeps tr) + (k - 1).
Proof.
  intros Hon Hk Hbefore HT.
  pose proof (parseParams_loop_outcome node privateNode tfBuffer config obj tr Hon)
    as H.
  rewrite (first_found_at tfBuffer _ _ 11 1 k T) in H;
    [| cbn; lia | exact Hbefore | exact HT].
  destruct H as (H1 & H2 & H3 & H4).
  split; [exact H1 |]. split; [| split; assumption].
  rewrite H2. apply Z.leb_le. lia.
Qed.

(** X1, on an input: the transform is there from the third look-up on. *)
Lemma transform_found_within_ten_witness :
  _T_lidar_imu (this (parseParams node_transform no_params (available_from 3)
                        sample_config fresh_object [])) = identity_transform /\
  _transformIMU (this (parseParams node_transform no_params (available_from 3)
                         sample_config fresh_object [])) = true.
Proof.
  destruct (transform_found_within_ten node_transform no_params (available_from 3)
              sample_config fresh_object [] 3 identity_transform)
    as (HT & Hon & _).
  - reflexivity.
  - lia.
  - intros j Hj. unfold available_from.
    destruct (j <? 3) eqn:E; [reflexivity | apply Z.ltb_ge in E; lia].
  - reflexivity.
  - split; [exact HT | exact Hon].
Defined.

(** X2. With the rotation asked for, when the first ten look-ups fail and
    the eleventh finds a transform, [parseParams] stores that transform and
    switches the rotation off all the same, after eleven look-ups and ten
    sleeps: the count alone decides. *)
Theorem transform_found_at_eleventh
    (node privateNode : NodeHandle) (tfBuffer : TfBuffer)
    (config : RegistrationParams) (obj : ScanRegistration) (tr : list Event)
    (T : TransformStamped) :
  _transformIMU (parsed_members node obj) = true ->
  (forall j, 1 <= j <= 10 ->
     tfBuffer j (_lidarFrame (parsed_members node obj))
       (_imuFrame (parsed_members node obj)) = None) ->
  tfBuffer 11 (_lidarFrame (parsed_members node obj))
    (_imuFrame (parsed_members node obj)) = Some T ->
  _T_lidar_imu (this (parseParams node privateNode tfBuffer config obj tr)) = T /\
  _transformIMU (this (parseParams node privateNode tfBuffer config obj tr)) = false /\
  Z.of_nat (lookups (trace (parseParams node privateNode tfBuffer config obj tr)))
    = Z.of_nat (lookups tr) + 11 /\
  Z.of_nat (sleeps (trace (parseParams node privateNode tfBuffer config obj tr)))
    = Z.of_nat (sleeps tr) + 10.
Proof.
  intros Hon Hbefore HT.
  pose proof (parseParams_loop_outcome node privateNode tfBuffer config obj tr Hon)
    as H.
  rewrite (first_found_at tfBuffer _ _ 11 1 11 T) in H;
    [| cbn; lia | intros i Hi; apply Hbefore; lia | exact HT].
  exact H.
Qed.

(** X2, on an input: the transform is there from the eleventh look-up on. *)
Lemma transform_found_at_eleventh_witness :
  _T_lidar_imu (this (parseParams node_transform no_params (available_from 11)
                        sample_config fresh_object [])) = identity_transform /\
  _transformIMU (this (parseParams node_transform no_params (available_from 11)
                         sample_config fresh_object [])) = false.
Proof.
  destruct (transform_found_at_eleventh node_transform no_params
              (available_from 11) sample_config fresh_object []
              identity_transform)
    as (HT & Hoff & _).
  - reflexivity.
  - intros j Hj. unfold available_from.
    destruct (j <? 11) eqn:E; [reflexivity | apply Z.ltb_ge in E; lia].
  - reflexivity.
  - split; [exact HT | exact Hoff].
Defined.

(** X3. With the rotation asked for, when all eleven look-ups fail,
    [parseParams] has made exactly eleven look-ups and slept eleven times,
    one second each, and [_T_lidar_imu] is the transform the object had;
    this is so whether or not the other options were accepted. *)
Theorem transform_never_found
    (node privateNode : NodeHandle) (tfBuffer : TfBuffer)
    (config : RegistrationParams) (obj : ScanRegistration) (tr : list Event) :
  _transformIMU (parsed_members node obj) = true ->
  (forall j, 1 <= j <= 11 ->
     tfBuffer j (_lidarFrame (parsed_members node obj))
       (_imuFrame (parsed_members node obj)) = None) ->
  _T_lidar_imu (this (parseParams node privateNode tfBuffer config obj tr))
    = _T_lidar_imu obj /\
  Z.of_nat (lookups (trace (parseParams node privateNode tfBuffer config obj tr)))
    = Z.of_nat (lookups tr) + 11 /\
  Z.of_nat (sleeps (trace (parseParams node privateNode tfBuffer config obj tr)))
    = Z.of_nat (sleeps tr) + 11.
Proof.
  intros Hon Hnone.
  pose proof (parseParams_loop_outcome node privateNode tfBuffer config obj tr Hon)
    as H.
  pose proof (first_found_spec tfBuffer
                (_lidarFrame (parsed_members node obj))
                (_imuFrame (parsed_members node obj)) 11 1) as Hff.
  destruct (first_found tfBuffer _ _ 1 11) as [[k T] |].
  - destruct Hff as (Hk & HT & _). rewrite Hnone in HT by lia. discriminate.
  - destruct H as (H1 & _ & H3 & H4). split; [exact H1 |]. split; assumption.
Qed.

(** X3, on an input: a bad [imuHistorySize] beside the request, and a
    transform that never comes. *)
Lemma transform_never_found_witness :
  success (parseParams node_transform node_bad_history never_available
             sample_config fresh_object []) = false /\
  lookups (trace (parseParams node_transform node_bad_history never_available
                    sample_config fresh_object [])) = 11%nat /\
  sleeps (trace (parseParams node_transform node_bad_history never_available
                   sample_config fresh_object [])) = 11%nat.
Proof.
  destruct (transform_never_found node_transform node_bad_history
              never_available sample_config fresh_object [])
    as (_ & Hl & Hs).
  - reflexivity.
  - intros j _. reflexivity.
  - split; [reflexivity |].
    split; apply Nat2Z.inj; [exact Hl | exact Hs].
Defined.

(** When the rotation is on after [parseParams]. *)
Lemma rotation_on_iff
    (node privateNode : NodeHandle) (tfBuffer : TfBuffer)
    (config : RegistrationParams) (obj : ScanRegistration) (tr : list Event) :
  _transformIMU (this (parseParams node privateNode tfBuffer config obj tr)) = true
  <->
  _transformIMU (parsed_members node obj) = true /\
  exists k, 1 <= k <= 10 /\
    tfBuffer k (_lidarFrame (parsed_members node obj))
      (_imuFrame (parsed_members node obj)) <> None.
Proof.
  destruct (_transformIMU (parsed_members node obj)) eqn:Hon.
  - pose proof (parseParams_loop_outcome node privateNode tfBuffer config obj tr Hon)
      as H.
    pose proof (first_found_spec tfBuffer
                  (_lidarFrame (parsed_members node obj))
                  (_imuFrame (parsed_members node obj)) 11 1) as Hff.
    destruct (first_found tfBuffer _ _ 1 11) as [[j T] |].
    + destruct H as (_ & -> & _). destruct Hff as (Hj & HT & Hbefore). split.
      * intros Hle. apply Z.leb_le in Hle. split; [reflexivity |].
        exists j. split; [lia |]. rewrite HT. discriminate.
      * intros (_ & k & Hk & Hsome). apply Z.leb_le.
        destruct (Z_le_gt_dec j k) as [Hjk | Hjk]; [lia |].
        exfalso. apply Hsome. apply Hbefore. lia.
    + destruct H as (_ & -> & _). split; [discriminate |].
      intros (_ & k & Hk & Hsome). exfalso. apply Hsome. apply Hff. lia.
  - destruct (parseParams_options_done node privateNode tfBuffer config obj tr)
      as (s & -> & Hs & _).
    rewrite resolve_transform_off by (rewrite Hs; exact Hon).
    rewrite Hs, Hon. split; [discriminate | intros [H _]; discriminate].
Qed.

(** X4. After [parseParams] the rotation of inertial samples is on exactly
    when it was asked for (by the option, or by the member when the option
    is absent) and one of the first ten look-ups finds the transform
    between the configured frames; and whenever it is on, [_T_lidar_imu] is
    the transform the buffer returned at the first look-up that
    succeeded. *)
Theorem rotation_on_iff_found_within_ten
    (node privateNode : NodeHandle) (tfBuffer : TfBuffer)
    (config : RegistrationParams) (obj : ScanRegistration) (tr : list Event) :
  (_transformIMU (this (parseParams node privateNode tfBuffer config obj tr)) = true
   <->
   _transformIMU (parsed_members node obj) = true /\
   exists k, 1 <= k <= 10 /\
     tfBuffer k (_lidarFrame (parsed_members node obj))
       (_imuFrame (parsed_members node obj)) <> None) /\
  (_transformIMU (this (parseParams node privateNode tfBuffer config obj tr)) = true ->
   exists k, 1 <= k <= 10 /\
     tfBuffer k (_lidarFrame (parsed_members node obj))
       (_imuFrame (parsed_members node obj))
     = Some (_T_lidar_imu
               (this (parseParams node privateNode tfBuffer config obj tr))) /\
     forall j, 1 <= j < k ->
       tfBuffer j (_lidarFrame (parsed_members node obj))
         (_imuFrame (parsed_members node obj)) = None).
Proof.
  split; [apply rotation_on_iff |].
  intros Hon.
  pose proof (proj1 (rotation_on_iff node privateNode tfBuffer config obj tr) Hon)
    as [Hasked _].
  pose proof (parseParams_loop_outcome node privateNode tfBuffer config obj tr
                Hasked) as H.
  pose proof (first_found_spec tfBuffer
                (_lidarFrame (parsed_members node obj))
                (_imuFrame (parsed_members node obj)) 11 1) as Hff.
  destruct (first_found tfBuffer _ _ 1 11) as [[k T] |].
  - destruct H as (HT & Hflag & _). destruct Hff as (Hk & Hsome & Hbefore).
    rewrite Hon in Hflag. symmetry in Hflag. apply Z.leb_le in Hflag.
    exists k. split; [lia |]. split; [rewrite HT; exact Hsome | exact Hbefore].
  - destruct H as (_ & Hflag & _). rewrite Hon in Hflag. discriminate.
Qed.

(** X5. When the rotation is not asked for, [parseParams] makes no look-up
    and does not sleep, and all it does to the object is to store the
    supplied member options: [_T_lidar_imu] and the handles are as they
    were. *)
Theorem no_lookup_unless_asked
    (node privateNode : NodeHandle) (tfBuffer : TfBuffer)
    (config : RegistrationParams) (obj : ScanRegistration) (tr : list Event) :
  _transformIMU (parsed_members node obj) = false ->
  this (parseParams node privateNode tfBuffer config obj tr)
    = parsed_members node obj /\
  lookups (trace (parseParams node privateNode tfBuffer config obj tr))
    = lookups tr /\
  sleeps (trace (parseParams node privateNode tfBuffer config obj tr))
    = sleeps tr.
Proof.
  intros Hoff.
  destruct (parseParams_options_done node privateNode tfBuffer config obj tr)
    as (s & -> & Hs & _ & _ & logs & Ht & Hlogs).
  rewrite resolve_transform_off by (rewrite Hs; exact Hoff).
  destruct (only_logs_quiet logs Hlogs) as (Hl0 & Hs0 & _ & _).
  split; [exact Hs |].
  rewrite Ht, lookups_app, sleeps_app, Hl0, Hs0. split; lia.
Qed.

(** X5, on an input: [transformImuData] supplied as [false] to an object
    that had the rotation on; the buffer is not consulted. *)
Lemma no_lookup_unless_asked_witness :
  lookups (trace (parseParams (node_of [] [] [("transformImuData", false)] [])
                    no_params (available_from 1) sample_config stale_object []))
    = 0%nat /\
  _transformIMU
    (this (parseParams (node_of [] [] [("transformImuData", false)] [])
             no_params (available_from 1) sample_config stale_object []))
    = false.
Proof.
  destruct (no_lookup_unless_asked (node_of [] [] [("transformImuData", false)] [])
              no_params (available_from 1) sample_config stale_object [])
    as (Hobj & Hl & _).
  - reflexivity.
  - split; [exact Hl |]. rewrite Hobj. reflexivity.
Defined.

Lemma only_logs_no_lookup (l : list Event) :
  only_logs l -> filter is_lookup l = [].
Proof.
  intros H. apply only_logs_quiet in H. destruct H as (H & _).
  unfold lookups in H. apply length_zero_iff_nil. exact H.
Qed.

(** The look-ups of the loop all name the frames the object holds at
    entry. *)
Lemma lookup_retry_frames (tfBuffer : TfBuffer) (v : LoopVars * Frame) :
  exists n,
    filter is_lookup (trace (snd (lookup_retry tfBuffer v))) =
    filter is_lookup (trace (snd v)) ++
    repeat (TfLookup (_lidarFrame (this (snd v))) (_imuFrame (this (snd v)))) n.
Proof.
  assert (Hone : forall w,
    filter is_lookup (trace (snd (lookup_iteration tfBuffer w))) =
    filter is_lookup (trace (snd w)) ++
    [TfLookup (_lidarFrame (this (snd w))) (_imuFrame (this (snd w)))]).
  { intros w. unfold lookup_iteration. cbn [emit this].
    destruct (10 <? counter (fst w) + 1); destruct (tfBuffer _ _ _);
      cbn [fst snd trace emit log with_this];
      rewrite !filter_app; cbn; rewrite ?app_nil_r; reflexivity. }
  apply (lookup_retry_rel tfBuffer (fun v r => exists n,
    filter is_lookup (trace (snd r)) =
    filter is_lookup (trace (snd v)) ++
    repeat (TfLookup (_lidarFrame (this (snd v))) (_imuFrame (this (snd v)))) n));
    clear v.
  - intros v _. exists 1%nat. apply Hone.
  - intros v r _ [n Hn]. exists (S n).
    destruct (lookup_iteration_keeps tfBuffer v) as (_ & _ & Hi & Hl & _).
    rewrite Hn, Hone, Hi, Hl, <- app_assoc. reflexivity.
Qed.

(** X6. Every look-up [parseParams] makes asks for the transform between
    the frames configured by this very call: the [lidarFrame] and
    [imuFrame] options are read before the loop starts, and the loop does
    not change them. *)
Theorem lookups_use_configured_frames
    (node privateNode : NodeHandle) (tfBuffer : TfBuffer)
    (config : RegistrationParams) (obj : ScanRegistration) (tr : list Event) :
  _lidarFrame (this (parseParams node privateNode tfBuffer config obj tr))
    = supplied (getParam_string node "lidarFrame") (_lidarFrame obj) /\
  _imuFrame (this (parseParams node privateNode tfBuffer config obj tr))
    = supplied (getParam_string node "imuFrame") (_imuFrame obj) /\
  filter is_lookup (trace (parseParams node privateNode tfBuffer config obj tr)) =
  filter is_lookup tr ++
  repeat
    (TfLookup
       (_lidarFrame (this (parseParams node privateNode tfBuffer config obj tr)))
       (_imuFrame (this (parseParams node privateNode tfBuffer config obj tr))))
    (lookups (trace (parseParams node privateNode tfBuffer config obj tr))
     - lookups tr).
Proof.
  destruct (parseParams_spec node privateNode tfBuffer config obj tr)
    as (_ & _ & (Hi & Hl & _) & _).
  rewrite Hi, Hl. split; [reflexivity |]. split; [reflexivity |].
  assert (H : exists n,
    filter is_lookup (trace (parseParams node privateNode tfBuffer config obj tr)) =
    filter is_lookup tr ++
    repeat (TfLookup (_lidarFrame (parsed_members node obj))
              (_imuFrame (parsed_members node obj))) n).
  { destruct (parseParams_options_done node privateNode tfBuffer config obj tr)
      as (s & -> & Hs & _ & _ & logs & Ht & Hlogs).
    assert (H0 : filter is_lookup (trace s) = filter is_lookup tr).
    { rewrite Ht, filter_app, (only_logs_no_lookup logs Hlogs), app_nil_r.
      reflexivity. }
    unfold resolve_transform, lookup_while.
    destruct (_transformIMU (this s)); cbn [fst transform_found].
    - destruct (lookup_retry_frames tfBuffer
                  ({| transform_found := false; counter := 0 |}, s)) as [n Hn].
      exists n. cbn [snd] in Hn. rewrite Hn, H0, Hs. reflexivity.
    - exists 0%nat. cbn [repeat]. rewrite app_nil_r. exact H0. }
  destruct H as [n Hn]. rewrite Hn. f_equal. f_equal.
  unfold lookups. rewrite Hn, length_app, repeat_length. lia.
Qed.

(** X7. [parseParams] alone sets up nothing: it makes no [subscribe] and no
    [advertise] call and leaves the seven handles of the object as they
    were, whatever it returns. *)
Theorem parseParams_sets_nothing_up
    (node privateNode : NodeHandle) (tfBuffer : TfBuffer)
    (config : RegistrationParams) (obj : ScanRegistration) (tr : list Event) :
  setups (trace (parseParams node privateNode tfBuffer config obj tr)) = setups tr /\
  handles (this (parseParams node privateNode tfBuffer config obj tr)) = handles obj.
Proof.
  destruct (parseParams_spec node privateNode tfBuffer config obj tr)
    as (_ & _ & Hk & added & Ht & _ & _ & Hp & _).
  split; [rewrite Ht, setups_app, Hp; lia |].
  unfold kept in Hk. unfold handles, sweep_publishers.
  destruct Hk as (_ & _ & _ & -> & -> & -> & -> & -> & -> & ->).
  reflexivity.
Qed.

(** ** Reports *)

Lemma reports_app (a b : list Event) :
  reports (a ++ b) = (reports a + reports b)%nat.
Proof. unfold reports. rewrite filter_app, length_app. reflexivity. Qed.

Ltac report_cases :=
  intros;
  match goal with |- context [trace (?blk ?n ?s)] => unfold blk end;
  unfold rejected, passes, positive, at_least, at_least_thousandth;
  match goal with
  | |- context [match ?o with Some _ => _ | None => _ end] =>
      destruct o as [v |]
  end;
  try match goal with
      | |- context [if ?b then _ else _] => destruct b
      end;
  cbn [trace reject log with_config negb];
  rewrite ?reports_app; cbn; lia.

Lemma parse_scanPeriod_reports (node : NodeHandle) (s : Frame) :
  reports (trace (parse_scanPeriod node s)) =
  (reports (trace s) + rejected positive (getParam_float node "scanPeriod"))%nat.
Proof. report_cases. Qed.

Lemma parse_imuHistorySize_reports (privateNode : NodeHandle) (s : Frame) :
  reports (trace (parse_imuHistorySize privateNode s)) =
  (reports (trace s) +
   rejected (at_least 1) (getParam_int privateNode "imuHistorySize"))%nat.
Proof. report_cases. Qed.

Lemma parse_featureRegions_reports (privateNode : NodeHandle) (s : Frame) :
  reports (trace (parse_featureRegions privateNode s)) =
  (reports (trace s) +
   rejected (at_least 1) (getParam_int privateNode "featureRegions"))%nat.
Proof. report_cases. Qed.

Lemma parse_curvatureRegion_reports (privateNode : NodeHandle) (s : Frame) :
  reports (trace (parse_curvatureRegion privateNode s)) =
  (reports (trace s) +
   rejected (at_least 1) (getParam_int privateNode "curvatureRegion"))%nat.
Proof. report_cases. Qed.

Lemma parse_maxCornerSharp_reports (privateNode : NodeHandle) (s : Frame) :
  reports (trace (parse_maxCornerSharp privateNode s)) =
  (reports (trace s) +
   rejected (at_least 1) (getParam_int privateNode "maxCornerSharp"))%nat.
Proof. report_cases. Qed.

Lemma parse_maxCornerLessSharp_reports (privateNode : NodeHandle) (s : Frame) :
  reports (trace (parse_maxCornerLessSharp privateNode s)) =
  (reports (trace s) +
   rejected (at_least (maxCornerSharp (config_out s)))
     (getParam_int privateNode "maxCornerLessSharp"))%nat.
Proof. report_cases. Qed.

Lemma parse_maxSurfaceFlat_reports (privateNode : NodeHandle) (s : Frame) :
  reports (trace (parse_maxSurfaceFlat privateNode s)) =
  (reports (trace s) +
   rejected (at_least 1) (getParam_int privateNode "maxSurfaceFlat"))%nat.
Proof. report_cases. Qed.

Lemma parse_surfaceCurvatureThreshold_reports (privateNode : NodeHandle)
    (s : Frame) :
  reports (trace (parse_surfaceCurvatureThreshold privateNode s)) =
  (reports (trace s) +
   rejected at_least_thousandth
     (getParam_float privateNode "surfaceCurvatureThreshold"))%nat.
Proof. report_cases. Qed.

Lemma parse_lessFlatFilterSize_reports (privateNode : NodeHandle) (s : Frame) :
  reports (trace (parse_lessFlatFilterSize privateNode s)) =
  (reports (trace s) +
   rejected at_least_thousandth
     (getParam_float privateNode "lessFlatFilterSize"))%nat.
Proof. report_cases. Qed.

Lemma parse_config_reports (node privateNode : NodeHandle) (s : Frame) :
  reports (trace (parse_config node privateNode s)) =
  (reports (trace s) + rejections node privateNode (config_out s))%nat.
Proof.
  unfold parse_config, rejections.
  set (s1 := parse_scanPeriod node s).
  set (s2 := parse_imuHistorySize privateNode s1).
  set (s3 := parse_featureRegions privateNode s2).
  set (s4 := parse_curvatureRegion privateNode s3).
  set (s5 := parse_maxCornerSharp privateNode s4).
  assert (Hsharp : maxCornerSharp (config_out s5) =
    accepted (at_least 1) (getParam_int privateNode "maxCornerSharp")
      (maxCornerSharp (config_out s))).
  { subst s5.
    rewrite (proj1 (proj2 (parse_maxCornerSharp_spec privateNode s4))). subst s4.
    rewrite (proj1 (proj2 (parse_curvatureRegion_spec privateNode s3))). subst s3.
    rewrite (proj1 (proj2 (parse_featureRegions_spec privateNode s2))). subst s2.
    rewrite (proj1 (proj2 (parse_imuHistorySize_spec privateNode s1))). subst s1.
    rewrite (proj1 (proj2 (parse_scanPeriod_spec node s))). reflexivity. }
  rewrite parse_lessFlatFilterSize_reports, parse_surfaceCurvatureThreshold_reports,
    parse_maxSurfaceFlat_reports, parse_maxCornerLessSharp_reports, Hsharp.
  fold s5. subst s5.
  rewrite parse_maxCornerSharp_reports. subst s4.
  rewrite parse_curvatureRegion_reports. subst s3.
  rewrite parse_featureRegions_reports. subst s2.
  rewrite parse_imuHistorySize_reports. subst s1.
  rewrite parse_scanPeriod_reports. lia.
Qed.

Lemma only_logs_debug_no_report (node : NodeHandle) (s : Frame) :
  reports (trace (parse_members node s)) = reports (trace s).
Proof.
  unfold parse_members, parse_lidarFrame, parse_imuFrame, parse_transformImuData,
    parse_imuInputTopic.
  destruct (getParam_string node "lidarFrame");
    destruct (getParam_string node "imuFrame");
    destruct (getParam_bool node "transformImuData");
    destruct (getParam_string node "imuInputTopic");
    cbn [trace log with_this]; rewrite ?reports_app; cbn; lia.
Qed.

Lemma resolve_transform_reports (tfBuffer : TfBuffer) (s : Frame) :
  reports (trace (resolve_transform tfBuffer s)) = reports (trace s).
Proof.
  unfold resolve_transform, lookup_while.
  destruct (_transformIMU (this s)); cbn [fst transform_found]; [| reflexivity].
  apply (lookup_retry_inv tfBuffer
           (fun s' => reports (trace s') = reports (trace s)));
    [| reflexivity].
  intros v Hv. rewrite <- Hv. unfold lookup_iteration. cbn [emit this].
  destruct (10 <? counter (fst v) + 1); destruct (tfBuffer _ _ _);
    cbn [fst snd trace emit log with_this];
    rewrite ?reports_app; cbn; lia.
Qed.

Lemma rejected_zero {A : Type} (test : A -> bool) (o : option A) :
  rejected test o = 0%nat <-> passes test o = true.
Proof. unfold rejected. destruct (passes test o); split; intros; congruence. Qed.

Lemma rejections_zero (node privateNode : NodeHandle) (c : RegistrationParams) :
  rejections node privateNode c = 0%nat <-> checks node privateNode c = true.
Proof.
  unfold rejections, checks. rewrite !andb_true_iff, <- !rejected_zero. lia.
Qed.

(** X8. Every supplied option that [parseParams] turns down is reported by
    one error line of its own ("Invalid ... parameter"), and no such line
    is logged otherwise: the number of these lines the call adds is the
    number of rejected options, and the call returns [true] exactly when it
    adds none. *)
Theorem rejections_are_reported
    (node privateNode : NodeHandle) (tfBuffer : TfBuffer)
    (config : RegistrationParams) (obj : ScanRegistration) (tr : list Event) :
  reports (trace (parseParams node privateNode tfBuffer config obj tr)) =
    (reports tr + rejections node privateNode config)%nat /\
  (success (parseParams node privateNode tfBuffer config obj tr) = true <->
   reports (trace (parseParams node privateNode tfBuffer config obj tr)) = reports tr).
Proof.
  assert (H : reports (trace (parseParams node privateNode tfBuffer config obj tr)) =
              (reports tr + rejections node privateNode config)%nat).
  { unfold parseParams.
    rewrite resolve_transform_reports, only_logs_debug_no_report,
      parse_config_reports. reflexivity. }
  split; [exact H |].
  rewrite H, (proj1 (parseParams_spec node privateNode tfBuffer config obj tr)).
  rewrite <- rejections_zero. lia.
Qed.

(** X8, on an input: two bad options, two reports. *)
Example two_rejections_two_reports :
  let privateNode := node_of [("lessFlatFilterSize", Num 0)]
                       [("imuHistorySize", 0); ("featureRegions", 3)] [] [] in
  rejections no_params privateNode sample_config = 2%nat /\
  reports (trace (parseParams no_params privateNode never_available sample_config
                    fresh_object [])) = 2%nat.
Proof. vm_compute. split; reflexivity. Qed.

(** ** Validity *)

Lemma accepted_keeps {A : Type} (P : A -> Prop) (test : A -> bool)
    (o : option A) (old : A) :
  P old -> (forall v, test v = true -> P v) -> P (accepted test o old).
Proof.
  intros Hold Htest. unfold accepted.
  destruct o as [v |]; [| exact Hold].
  destruct (test v) eqn:E; [apply Htest; exact E | exact Hold].
Qed.

(** X9. [parseParams] keeps a valid configuration valid, whether it returns
    [true] or [false]: a value that fails its test is never written, and
    the implied [maxCornerLessSharp] is not below [maxCornerSharp]. The two
    conditions are those the tests do not see to: no [float] option is
    supplied as not-a-number, and ten times a supplied [maxCornerSharp]
    fits an [int]. *)
Theorem parseParams_keeps_valid
    (node privateNode : NodeHandle) (tfBuffer : TfBuffer)
    (config : RegistrationParams) (obj : ScanRegistration) (tr : list Event) :
  valid_config config ->
  floats_are_numbers node privateNode ->
  holds (fun v => 10 * v <= Int32.max_int)
    (getParam_int privateNode "maxCornerSharp") ->
  valid_config (config_out (parseParams node privateNode tfBuffer config obj tr)).
Proof.
  intros (V1 & V2 & V3 & V4 & V5 & V6 & V7 & V8 & V9) (N1 & N2 & N3) Hfit.
  rewrite (proj1 (proj2 (parseParams_spec node privateNode tfBuffer config obj tr))).
  unfold valid_config, parsed_config.
  cbn [scanPeriod imuHistorySize nFeatureRegions curvatureRegion maxCornerSharp
       maxCornerLessSharp maxSurfaceFlat surfaceCurvatureThreshold
       lessFlatFilterSize].
  set (sharp := accepted (at_least 1) (getParam_int privateNode "maxCornerSharp")
                  (maxCornerSharp config)).
  split.
  { unfold accepted. destruct (getParam_float node "scanPeriod") as [v |];
      [| exact V1].
    destruct (positive v) eqn:E; [| exact V1].
    apply (positive_iff v N1). exact E. }
  split; [apply (accepted_keeps (fun x => 1 <= x));
            [exact V2 | intros v Hv; apply (proj1 (at_least_iff 1 v)); exact Hv] |].
  split; [apply (accepted_keeps (fun x => 1 <= x));
            [exact V3 | intros v Hv; apply (proj1 (at_least_iff 1 v)); exact Hv] |].
  split; [apply (accepted_keeps (fun x => 1 <= x));
            [exact V4 | intros v Hv; apply (proj1 (at_least_iff 1 v)); exact Hv] |].
  split; [apply (accepted_keeps (fun x => 1 <= x));
            [exact V5 | intros v Hv; apply (proj1 (at_least_iff 1 v)); exact Hv] |].
  split.
  { apply (accepted_keeps (fun x => sharp <= x));
      [| intros v Hv; apply (proj1 (at_least_iff sharp v)); exact Hv].
    subst sharp. unfold accepted, implied_lessSharp.
    destruct (getParam_int privateNode "maxCornerSharp") as [v |]; [| exact V6].
    destruct (at_least 1 v) eqn:E; [| exact V6].
    apply at_least_iff in E. cbn [holds] in Hfit.
    rewrite Int32_mul_exact; [lia |].
    unfold Int32.in_range, Int32.min_int, Int32.max_int in *. lia. }
  split; [apply (accepted_keeps (fun x => 1 <= x));
            [exact V7 | intros v Hv; apply (proj1 (at_least_iff 1 v)); exact Hv] |].
  split.
  { unfold accepted.
    destruct (getParam_float privateNode "surfaceCurvatureThreshold") as [v |];
      [| exact V8].
    destruct (at_least_thousandth v) eqn:E; [| exact V8].
    apply (at_least_thousandth_iff v N2). exact E. }
  { unfold accepted.
    destruct (getParam_float privateNode "lessFlatFilterSize") as [v |];
      [| exact V9].
    destruct (at_least_thousandth v) eqn:E; [| exact V9].
    apply (at_least_thousandth_iff v N3). exact E. }
Qed.

(** X9, on an input: a valid configuration, a bad [maxCornerLessSharp]
    beside a good [maxCornerSharp]. *)
Lemma parseParams_keeps_valid_witness :
  valid_config
    (config_out (parseParams no_params
                   (node_of [] [("maxCornerSharp", 5); ("maxCornerLessSharp", 3)] [] [])
                   never_available sample_config fresh_object [])).
Proof.
  apply (parseParams_keeps_valid no_params
           (node_of [] [("maxCornerSharp", 5); ("maxCornerLessSharp", 3)] [] [])
           never_available sample_config fresh_object []).
  - unfold valid_config, sample_config. cbn.
    repeat split; try lia; try (intro H; discriminate H); reflexivity.
  - repeat split.
  - cbn. unfold Int32.max_int. lia.
Defined.

(** Both conditions of X9 are needed: a [scanPeriod] that is not a number
    is stored, and leaves a configuration that is not valid. *)
Example nan_breaks_validity :
  ~ valid_config
      (config_out (parseParams node_nan no_params never_available sample_config
                     fresh_object [])).
Proof. intros (H & _). vm_compute in H. discriminate. Qed.

(** ** Parsing twice *)

Lemma accepted_again {A : Type} (test : A -> bool) (o : option A) (old : A) :
  accepted test o (accepted test o old) = accepted test o old.
Proof.
  unfold accepted. destruct o as [v |]; [| reflexivity].
  destruct (test v); reflexivity.
Qed.

Lemma parsed_config_again (node privateNode : NodeHandle)
    (c : RegistrationParams) :
  parsed_config node privateNode (parsed_config node privateNode c)
  = parsed_config node privateNode c.
Proof.
  unfold parsed_config.
  cbn [scanPeriod imuHistorySize nFeatureRegions curvatureRegion maxCornerSharp
       maxCornerLessSharp maxSurfaceFlat surfaceCurvatureThreshold
       lessFlatFilterSize].
  rewrite !accepted_again.
  f_equal.
  unfold implied_lessSharp.
  destruct (getParam_int privateNode "maxCornerSharp") as [v |].
  - destruct (at_least 1 v); [reflexivity | apply accepted_again].
  - apply accepted_again.
Qed.

Lemma checks_again (node privateNode : NodeHandle) (c : RegistrationParams) :
  checks node privateNode (parsed_config node privateNode c)
  = checks node privateNode c.
Proof.
  unfold checks, parsed_config. cbn [maxCornerSharp].
  rewrite accepted_again. reflexivity.
Qed.

(** X10. Parsing the same options a second time changes nothing: run on the
    [config_out] of a first call, with any buffer, object and trace,
    [parseParams] returns the same value and leaves that configuration as
    it is. *)
Theorem parseParams_twice
    (node privateNode : NodeHandle) (tfBuffer tfBuffer' : TfBuffer)
    (config : RegistrationParams) (obj obj' : ScanRegistration)
    (tr tr' : list Event) :
  config_out
    (parseParams node privateNode tfBuffer'
       (config_out (parseParams node privateNode tfBuffer config obj tr)) obj' tr')
  = config_out (parseParams node privateNode tfBuffer config obj tr) /\
  success
    (parseParams node privateNode tfBuffer'
       (config_out (parseParams node privateNode tfBuffer config obj tr)) obj' tr')
  = success (parseParams node privateNode tfBuffer config obj tr).
Proof.
  destruct (parseParams_spec node privateNode tfBuffer config obj tr)
    as (Hs & Hc & _).
  destruct (parseParams_spec node privateNode tfBuffer'
              (config_out (parseParams node privateNode tfBuffer config obj tr))
              obj' tr') as (Hs' & Hc' & _).
  rewrite Hs', Hc', Hs, Hc. split; [apply parsed_config_again | apply checks_again].
Qed.

(** X11. When [maxCornerSharp] is supplied with a value below 1,
    [parseParams] returns [false], leaves [maxCornerSharp] as configured and
    writes no implied default; a [maxCornerLessSharp] supplied in the same
    call is then measured against the configured [maxCornerSharp], and is
    written when it is at least that. *)
Theorem rejected_maxCornerSharp
    (node privateNode : NodeHandle) (tfBuffer : TfBuffer)
    (config : RegistrationParams) (obj : ScanRegistration) (tr : list Event)
    (v : Z) :
  getParam_int privateNode "maxCornerSharp" = Some v ->
  v < 1 ->
  success (parseParams node privateNode tfBuffer config obj tr) = false /\
  maxCornerSharp
    (config_out (parseParams node privateNode tfBuffer config obj tr))
  = maxCornerSharp config /\
  maxCornerLessSharp
    (config_out (parseParams node privateNode tfBuffer config obj tr))
  = match getParam_int privateNode "maxCornerLessSharp" with
    | Some w => if w <? maxCornerSharp config then maxCornerLessSharp config else w
    | None => maxCornerLessSharp config
    end.
Proof.
  intros Hv Hlt.
  destruct (parseParams_spec node privateNode tfBuffer config obj tr)
    as (Hs & Hc & _).
  rewrite Hs, Hc.
  assert (Hno : at_least 1 v = false)
    by (unfold at_least; apply negb_false_iff, Z.ltb_lt; exact Hlt).
  unfold checks, parsed_config. cbn [maxCornerSharp maxCornerLessSharp].
  rewrite Hv. cbn [passes accepted implied_lessSharp]. rewrite Hno.
  split; [rewrite !andb_false_r; reflexivity |]. split; [reflexivity |].
  destruct (getParam_int privateNode "maxCornerLessSharp") as [w |];
    [| reflexivity].
  unfold accepted, at_least. destruct (w <? maxCornerSharp config); reflexivity.
Qed.

(** X11, on an input: [maxCornerSharp] 0 beside [maxCornerLessSharp] 3, on a
    configuration that holds 2 and 20. *)
Lemma rejected_maxCornerSharp_witness :
  success (parseParams no_params
             (node_of [] [("maxCornerSharp", 0); ("maxCornerLessSharp", 3)] [] [])
             never_available sample_config fresh_object []) = false /\
  maxCornerSharp
    (config_out (parseParams no_params
                   (node_of [] [("maxCornerSharp", 0); ("maxCornerLessSharp", 3)] [] [])
                   never_available sample_config fresh_object [])) = 2 /\
  maxCornerLessSharp
    (config_out (parseParams no_params
                   (node_of [] [("maxCornerSharp", 0); ("maxCornerLessSharp", 3)] [] [])
                   never_available sample_config fresh_object [])) = 3.
Proof.
  apply (rejected_maxCornerSharp no_params
           (node_of [] [("maxCornerSharp", 0); ("maxCornerLessSharp", 3)] [] [])
           never_available sample_config fresh_object [] 0).
  - reflexivity.
  - lia.
Defined.

(** ** setupROS, further *)

(** The members [setupROS] leaves against those [parseParams] left. *)
Lemma setupROS_members (node privateNode : NodeHandle) (tfBuffer : TfBuffer)
    (config : RegistrationParams) (obj : ScanRegistration) (tr : list Event) :
  _transformIMU (this (setupROS node privateNode tfBuffer config obj tr)) =
    _transformIMU
      (this (parseParams node privateNode tfBuffer config (reset_members obj) tr)) /\
  _imuFrame (this (setupROS node privateNode tfBuffer config obj tr)) =
    _imuFrame
      (this (parseParams node privateNode tfBuffer config (reset_members obj) tr)) /\
  _lidarFrame (this (setupROS node privateNode tfBuffer config obj tr)) =
    _lidarFrame
      (this (parseParams node privateNode tfBuffer config (reset_members obj) tr)) /\
  _imuInputTopic (this (setupROS node privateNode tfBuffer config obj tr)) =
    _imuInputTopic
      (this (parseParams node privateNode tfBuffer config (reset_members obj) tr)) /\
  _T_lidar_imu (this (setupROS node privateNode tfBuffer config obj tr)) =
    _T_lidar_imu
      (this (parseParams node privateNode tfBuffer config (reset_members obj) tr)).
Proof.
  unfold setupROS. destruct (success (parseParams _ _ _ _ _ _));
    cbn [negb this]; repeat split.
Qed.

(** X12. After [setupROS], whether it returned [true] or [false], the two
    frames and the input topic hold the supplied option, or else "/imu",
    "/camera" and "/imu/data"; and the rotation of inertial samples is on
    exactly when [transformImuData] was supplied as [true] and one of the
    first ten look-ups found the transform between those two frames. What
    the members held before the call plays no part. *)
Theorem setupROS_members_after
    (node privateNode : NodeHandle) (tfBuffer : TfBuffer)
    (config : RegistrationParams) (obj : ScanRegistration) (tr : list Event) :
  _imuFrame (this (setupROS node privateNode tfBuffer config obj tr))
    = supplied (getParam_string node "imuFrame") "/imu" /\
  _lidarFrame (this (setupROS node privateNode tfBuffer config obj tr))
    = supplied (getParam_string node "lidarFrame") "/camera" /\
  _imuInputTopic (this (setupROS node privateNode tfBuffer config obj tr))
    = supplied (getParam_string node "imuInputTopic") "/imu/data" /\
  (_transformIMU (this (setupROS node privateNode tfBuffer config obj tr)) = true
   <->
   getParam_bool node "transformImuData" = Some true /\
   exists k, 1 <= k <= 10 /\
     tfBuffer k (supplied (getParam_string node "lidarFrame") "/camera")
       (supplied (getParam_string node "imuFrame") "/imu") <> None).
Proof.
  destruct (setupROS_members node privateNode tfBuffer config obj tr)
    as (Hflag & Hi & Hl & Ht & _).
  destruct (parseParams_spec node privateNode tfBuffer config (reset_members obj) tr)
    as (_ & _ & (Hi' & Hl' & Ht' & _) & _).
  rewrite Hflag, Hi, Hl, Ht, Hi', Hl', Ht'.
  split; [reflexivity |]. split; [reflexivity |]. split; [reflexivity |].
  rewrite rotation_on_iff.
  unfold parsed_members, reset_members.
  cbn [_transformIMU _imuFrame _lidarFrame set_imuInputTopic set_lidarFrame
       set_imuFrame set_transformIMU].
  destruct (getParam_bool node "transformImuData") as [[|] |]; cbn [supplied];
    split; intros [H1 H2]; try discriminate; (split; [reflexivity | exact H2]).
Qed.

(** [setupROS] on options that are all in range. *)
Lemma setupROS_on_success (node privateNode : NodeHandle) (tfBuffer : TfBuffer)
    (config : RegistrationParams) (obj : ScanRegistration) (tr : list Event) :
  constraints_met node privateNode config ->
  success (setupROS node privateNode tfBuffer config obj tr) = true /\
  trace (setupROS node privateNode tfBuffer config obj tr) =
    trace (parseParams node privateNode tfBuffer config (reset_members obj) tr)
    ++ setup_events (supplied (getParam_string node "imuInputTopic") "/imu/data") /\
  _subImu (this (setupROS node privateNode tfBuffer config obj tr)) =
    Some (subscribe (supplied (getParam_string node "imuInputTopic") "/imu/data") 50) /\
  sweep_publishers (this (setupROS node privateNode tfBuffer config obj tr)) =
    map Some advertised /\
  _lidarFrame (this (setupROS node privateNode tfBuffer config obj tr)) =
    supplied (getParam_string node "lidarFrame") "/camera".
Proof.
  intros Hmet.
  pose proof (constraints_pass node privateNode config Hmet) as Hpass.
  rewrite <- (proj1 (parseParams_spec node privateNode tfBuffer config
                       (reset_members obj) tr)) in Hpass.
  clear Hmet. rename Hpass into Hmet.
  destruct (parseParams_spec node privateNode tfBuffer config (reset_members obj) tr)
    as (_ & _ & (_ & Hl & Ht & _) & _).
  unfold setupROS. rewrite Hmet. cbn [negb success trace this].
  rewrite Ht.
  split; [reflexivity |]. split; [reflexivity |]. split; [reflexivity |].
  split; [reflexivity |]. cbn [set_handles _lidarFrame]. exact Hl.
Qed.

(** X13. When every supplied option is in range, [setupROS] returns [true]
    and, after everything [parseParams] did, subscribes once, with queue
    size 50, to the inertial topic configured by this call (the
    [imuInputTopic] option, or else "/imu/data") and advertises the six
    output topics, in this order; the seven handles of the object are the
    ones so created. *)
Theorem setupROS_success_sets_up
    (node privateNode : NodeHandle) (tfBuffer : TfBuffer)
    (config : RegistrationParams) (obj : ScanRegistration) (tr : list Event) :
  constraints_met node privateNode config ->
  success (setupROS node privateNode tfBuffer config obj tr) = true /\
  trace (setupROS node privateNode tfBuffer config obj tr) =
    trace (parseParams node privateNode tfBuffer config (reset_members obj) tr)
    ++ setup_events (supplied (getParam_string node "imuInputTopic") "/imu/data") /\
  setups (trace (setupROS node privateNode tfBuffer config obj tr)) =
    (setups tr + 7)%nat /\
  handles (this (setupROS node privateNode tfBuffer config obj tr)) =
    (Some (subscribe (supplied (getParam_string node "imuInputTopic") "/imu/data") 50),
     map Some advertised).
Proof.
  intros Hmet.
  destruct (setupROS_on_success node privateNode tfBuffer config obj tr Hmet)
    as (Hs & Ht & Hsub & Hpub & _).
  destruct (parseParams_spec node privateNode tfBuffer config (reset_members obj) tr)
    as (_ & _ & _ & added & Ha & _ & _ & Hp & _).
  split; [exact Hs |]. split; [exact Ht |]. split.
  - rewrite Ht, Ha, !setups_app, Hp. cbn. lia.
  - unfold handles. rewrite Hsub, Hpub. reflexivity.
Qed.

(** X13, on an input: the inertial topic supplied as "/xsens/imu". *)
Lemma setupROS_success_sets_up_witness :
  success (setupROS (node_of [] [] [] [("imuInputTopic", "/xsens/imu")]) no_params
             never_available sample_config fresh_object []) = true /\
  _subImu (this (setupROS (node_of [] [] [] [("imuInputTopic", "/xsens/imu")])
                   no_params never_available sample_config fresh_object []))
    = Some (subscribe "/xsens/imu" 50).
Proof.
  destruct (setupROS_success_sets_up
              (node_of [] [] [] [("imuInputTopic", "/xsens/imu")]) no_params
              never_available sample_config fresh_object [])
    as (Hs & _ & _ & Hh).
  - vm_compute. repeat split.
  - split; [exact Hs |].
    exact (f_equal fst Hh).
Defined.

(** X14. After a [setupROS] that returned [true], one [publishResult]
    sends its six messages, in order, through the publishers of
    "velodyne_cloud_2", "laser_cloud_sharp", "laser_cloud_less_sharp",
    "laser_cloud_flat", "laser_cloud_less_flat" and "imu_trans", and every
    message carries as frame id the lidar frame configured by that
    [setupROS]: the [lidarFrame] option, or else "/camera". *)
Theorem publishResult_after_setupROS
    (node privateNode : NodeHandle) (tfBuffer : TfBuffer)
    (config : RegistrationParams) (obj : ScanRegistration) (tr : list Event)
    (b : Basic) (out : list CloudMsg) :
  constraints_met node privateNode config ->
  exists msgs,
    publishResult (this (setupROS node privateNode tfBuffer config obj tr)) b out
      = out ++ msgs /\
    map msg_publisher msgs = map Some advertised /\
    map msg_cloud msgs = sweep_clouds b /\
    Forall (fun m => msg_frame_id m =
                       supplied (getParam_string node "lidarFrame") "/camera")
      msgs.
Proof.
  intros Hmet.
  destruct (setupROS_on_success node privateNode tfBuffer config obj tr Hmet)
    as (_ & _ & _ & Hpub & Hl).
  unfold publishResult, publishCloudMsg.
  repeat rewrite <- app_assoc. cbn [app].
  eexists. split; [reflexivity |].
  split; [exact Hpub |]. split; [reflexivity |].
  rewrite Hl. repeat (apply Forall_cons; [reflexivity |]). apply Forall_nil.
Qed.

(** ** The claims on the inputs the tests see to *)

(** X16. When no [float] option is supplied as not-a-number, [parseParams]
    returns [true] exactly when every supplied option satisfies its
    constraint ([scanPeriod > 0], the five counts at least 1,
    [maxCornerLessSharp] at least the [maxCornerSharp] in force, the two
    thresholds at least 0.001), and [setupROS] returns the same. *)
Theorem true_iff_constraints_on_numbers
    (node privateNode : NodeHandle) (tfBuffer : TfBuffer)
    (config : RegistrationParams) (obj : ScanRegistration) (tr : list Event) :
  floats_are_numbers node privateNode ->
  (success (parseParams node privateNode tfBuffer config obj tr) = true <->
   constraints_met node privateNode config) /\
  (success (setupROS node privateNode tfBuffer config obj tr) = true <->
   constraints_met node privateNode config).
Proof.
  intros Hnum.
  destruct (setupROS_spec node privateNode tfBuffer config obj tr) as [Hs _].
  destruct (parseParams_spec node privateNode tfBuffer config obj tr) as [Hp _].
  destruct (parseParams_spec node privateNode tfBuffer config (reset_members obj) tr)
    as [Hr _].
  rewrite Hs, Hr, Hp.
  split; apply checks_iff_on_numbers; exact Hnum.
Qed.

(** X16, on an input: a [scanPeriod] of zero is a number, does not satisfy
    its constraint, and is turned down. *)
Lemma true_iff_constraints_on_numbers_witness :
  success (parseParams (node_of [("scanPeriod", Num 0)] [] [] []) no_params
             never_available sample_config fresh_object []) <> true.
Proof.
  destruct (true_iff_constraints_on_numbers
              (node_of [("scanPeriod", Num 0)] [] [] []) no_params
              never_available sample_config fresh_object []) as [Hiff _].
  - split; [discriminate | split; exact I].
  - intros Htrue. apply Hiff in Htrue. destruct Htrue as (H & _).
    vm_compute in H. discriminate.
Defined.

(** X17. When [maxCornerSharp] is supplied with a value [v >= 1] whose
    tenfold fits an [int], [parseParams] stores [v] and gives
    [maxCornerLessSharp] the implied default [10 * v]; a
    [maxCornerLessSharp] supplied in the same call is measured against this
    [v], replaces the default when it is at least [v], and otherwise is
    rejected and leaves the default in place. *)
Theorem implied_default_is_tenfold
    (node privateNode : NodeHandle) (tfBuffer : TfBuffer)
    (config : RegistrationParams) (obj : ScanRegistration) (tr : list Event)
    (v : Z) :
  getParam_int privateNode "maxCornerSharp" = Some v ->
  1 <= v ->
  10 * v <= Int32.max_int ->
  maxCornerSharp
    (config_out (parseParams node privateNode tfBuffer config obj tr)) = v /\
  match getParam_int privateNode "maxCornerLessSharp" with
  | None =>
      maxCornerLessSharp
        (config_out (parseParams node privateNode tfBuffer config obj tr))
      = 10 * v
  | Some w =>
      if w <? v
      then maxCornerLessSharp
             (config_out (parseParams node privateNode tfBuffer config obj tr))
           = 10 * v /\
           success (parseParams node privateNode tfBuffer config obj tr) = false
      else maxCornerLessSharp
             (config_out (parseParams node privateNode tfBuffer config obj tr))
           = w
  end.
Proof.
  intros Hv Hge Hfit.
  destruct (parseParams_spec node privateNode tfBuffer config obj tr)
    as (Hs & Hc & _).
  rewrite Hc, Hs.
  assert (Hok : at_least 1 v = true) by (apply at_least_iff; exact Hge).
  assert (Hmul : Int32.mul 10 v = 10 * v).
  { apply Int32_mul_exact.
    unfold Int32.in_range, Int32.min_int, Int32.max_int in *. lia. }
  unfold parsed_config, checks.
  cbn [maxCornerSharp maxCornerLessSharp].
  rewrite Hv. cbn [accepted implied_lessSharp passes]. rewrite Hok, Hmul.
  split; [reflexivity |].
  destruct (getParam_int privateNode "maxCornerLessSharp") as [w |];
    [| reflexivity].
  cbn [accepted passes]. unfold at_least.
  destruct (w <? v); cbn [negb]; [| reflexivity].
  split; [reflexivity |].
  rewrite !andb_false_r. reflexivity.
Qed.

(** X17, on an input: [maxCornerSharp] 5 with no [maxCornerLessSharp] gives
    5 and 50. *)
Lemma implied_default_is_tenfold_witness :
  maxCornerSharp
    (config_out (parseParams no_params node_sharp_only never_available
                   sample_config fresh_object [])) = 5 /\
  maxCornerLessSharp
    (config_out (parseParams no_params node_sharp_only never_available
                   sample_config fresh_object [])) = 50.
Proof.
  apply (implied_default_is_tenfold no_params node_sharp_only
           never_available sample_config fresh_object [] 5).
  - reflexivity.
  - lia.
  - unfold Int32.max_int. lia.
Defined.

(** A supplied [maxCornerLessSharp] of 7 replaces the default 50. *)
Example maxCornerLessSharp_overrides :
  maxCornerLessSharp
    (config_out (parseParams no_params node_sharp_and_less never_available
                   sample_config fresh_object [])) = 7.
Proof. reflexivity. Qed.

End Node.

(** * The handlers on sample collaborators *)

Definition zero_time : Time := {| sec := 0; nsec := 0 |}.

(** A parameter server that names the lidar frame. *)
Definition node_lidar : NodeHandle :=
  node_of [] [] [] [("lidarFrame", "/velodyne")].

(** X14, on an input: the lidar frame supplied as "/velodyne", a sweep of
    numbered clouds. *)
Lemma publishResult_after_setupROS_witness :
  exists msgs,
    publishResult Time (fun t => t) unit nat (fun _ => zero_time)
      (fun _ => 1%nat) (fun _ => 2%nat) (fun _ => 3%nat) (fun _ => 4%nat)
      (fun _ => 5%nat) (fun _ => 6%nat)
      (this (setupROS node_lidar no_params never_available sample_config
               fresh_object [])) tt [] = msgs /\
    map (msg_cloud nat) msgs = [1; 2; 3; 4; 5; 6]%nat /\
    Forall (fun m => msg_frame_id nat m = "/velodyne") msgs.
Proof.
  destruct (publishResult_after_setupROS Time (fun t => t) unit nat
              (fun _ => zero_time)
              (fun _ => 1%nat) (fun _ => 2%nat) (fun _ => 3%nat) (fun _ => 4%nat)
              (fun _ => 5%nat) (fun _ => 6%nat)
              node_lidar no_params never_available sample_config fresh_object []
              tt [])
    as (msgs & Heq & _ & Hclouds & Hframes).
  - vm_compute. repeat split.
  - exists msgs. split; [exact Heq |]. split; [exact Hclouds | exact Hframes].
Defined.
